(** * franchino: the YouTube metadata client and the transcript helper

    A shallow embedding of [src/youtube_api_manager.py] (class
    [YouTubeAPIManager]) and of [src/test_yt_transcription.py] (class
    [YoutubeTranscriptor]), followed by the properties of the paginated
    listing, of the error contract and of the file sink.

    Python values decoded from JSON are the inductive type [value];
    Python exceptions are the type [exn]; a method of the client is a
    computation in the monad [M], which threads the list of requests
    executed on the remote client and ends in a returned value, a raised
    exception, or the exhaustion of the fuel of [while True]. *)

From Stdlib Require Import ZArith List String Ascii Bool Lia.
From stdpp Require Import gmap strings.
Import ListNotations.
Local Open Scope string_scope.
Local Open Scope Z_scope.
Local Open Scope list_scope.
Local Set Warnings "-register-all".

(** ** Python values *)

(** What [json.loads] and the client library's response decoding produce,
    and what the methods put in the records they return.  JSON numbers
    with a fractional part do not occur in the resources read here and
    are left out.  A [dict] keeps insertion order and is looked up by the
    first binding of a key. *)
Inductive value : Type :=
| VNone
| VBool (b : bool)
| VInt (z : Z)
| VStr (s : string)
| VList (l : list value)
| VDict (d : list (string * value)).

Abbreviation dict := (list (string * value)).

(** Python exceptions that the modelled code can meet.  A constructor
    names the class of the exception that is raised, not its ancestors:
    [ValueError msg] is an exception of the class [ValueError] itself,
    as [raise ValueError(msg)] makes it, while [DecodeError] stands for
    [UnicodeDecodeError] and [json.JSONDecodeError], which are
    subclasses of [ValueError]; [FileExistsError], [FileNotFoundError]
    and [IsADirectoryError] are subclasses of [OSError].
    [TransportError] stands for whatever [execute()] raises that is not
    an [HttpError]. *)
Inductive exn : Type :=
| ValueError (msg : string)
| KeyError (key : value)
| IndexError
| TypeError
| AttributeError
| DecodeError           (* UnicodeDecodeError or json.JSONDecodeError *)
| HttpError (content : option value)
| TransportError                    (* any other exception of [execute()] *)
| TranscriptError                   (* raised by [YouTubeTranscriptApi.fetch] *)
| UnicodeEncodeError
| FileExistsError
| FileNotFoundError
| IsADirectoryError
| OSError.

(** [isinstance(e, ValueError)], for the exceptions whose class is
    known. *)
Definition is_ValueError (e : exn) : bool :=
  match e with
  | ValueError _ | DecodeError | UnicodeEncodeError => true
  | _ => false
  end.

(** [bool(v)]. *)
Definition truthy (v : value) : bool :=
  match v with
  | VNone => false
  | VBool b => b
  | VInt z => negb (z =? 0)
  | VStr s => negb (String.eqb s "")
  | VList l => match l with [] => false | _ => true end
  | VDict d => match d with [] => false | _ => true end
  end.

(** [bool(s)] for an argument declared [s: str = None]. *)
Definition truthy_str (s : option string) : bool :=
  match s with
  | None => false
  | Some s => negb (String.eqb s "")
  end.

(** [bool(n)] for an argument declared [n: int] that may be [None]. *)
Definition truthy_int (n : option Z) : bool :=
  match n with
  | None => false
  | Some z => negb (z =? 0)
  end.

Fixpoint dict_lookup (k : string) (d : dict) : option value :=
  match d with
  | [] => None
  | (k', v) :: d' => if String.eqb k k' then Some v else dict_lookup k d'
  end.

(** [k in d]. *)
Definition dict_mem (k : string) (d : dict) : bool :=
  match dict_lookup k d with Some _ => true | None => false end.

(** [v[k]] for a string key [k]. *)
Definition getitem (v : value) (k : string) : exn + value :=
  match v with
  | VDict d =>
      match dict_lookup k d with
      | Some x => inr x
      | None => inl (KeyError (VStr k))
      end
  | _ => inl TypeError
  end.

(** [v.get(k, default)]. *)
Definition py_get (v : value) (k : string) (default : value) : exn + value :=
  match v with
  | VDict d =>
      match dict_lookup k d with
      | Some x => inr x
      | None => inr default
      end
  | _ => inl AttributeError
  end.

(** [v[0]]. *)
Definition getitem0 (v : value) : exn + value :=
  match v with
  | VList (x :: _) => inr x
  | VList [] => inl IndexError
  | VStr (String c _) => inr (VStr (String c ""))
  | VStr EmptyString => inl IndexError
  | VDict _ => inl (KeyError (VInt 0))
  | _ => inl TypeError
  end.

Fixpoint chars (s : string) : list value :=
  match s with
  | EmptyString => []
  | String c s' => VStr (String c "") :: chars s'
  end.

(** The elements that [for item in v] visits. *)
Definition iterate (v : value) : exn + list value :=
  match v with
  | VList l => inr l
  | VStr s => inr (chars s)
  | VDict d => inr (map (fun kv => VStr (fst kv)) d)
  | _ => inl TypeError
  end.

(** ** The remote client *)

(** The three requests that the code builds on [self.youtube]; keyword
    arguments that a call does not pass are [None]. *)
Inductive request : Type :=
| ChannelsList (part : string) (id forUsername : option string)
| PlaylistItemsList (part : string) (playlistId : value) (maxResults : Z)
                    (pageToken : value)
| VideosList (part : string) (id : string).

(** What [request.execute()] does: it returns the decoded body, raises
    [HttpError], or raises something else.  An [HttpError e] is kept as
    what [json.loads(e.content.decode('utf-8'))] evaluates to: [Some j],
    or [None] when the decoding itself raises. *)
Inductive reply : Type :=
| Body (response : value)
| HttpFailure (content : option value)
| OtherFailure.

(** A remote service answers a request knowing the requests executed
    before it. *)
Definition transport : Type := list request -> request -> reply.

Record YouTubeAPIManager : Type := {
  api_key : string;
  youtube : transport
}.

(** ** Computations *)

Inductive outcome (A : Type) : Type :=
| Return (a : A)
| Raise (e : exn)
| OutOfFuel.
Arguments Return {A} a.
Arguments Raise {A} e.
Arguments OutOfFuel {A}.

(** A computation reads and extends the log of executed requests. *)
Definition M (A : Type) : Type := list request -> outcome A * list request.

Definition ret {A} (a : A) : M A := fun log => (Return a, log).

Definition raise {A} (e : exn) : M A := fun log => (Raise e, log).

Definition bind {A B} (m : M A) (f : A -> M B) : M B :=
  fun log =>
    match m log with
    | (Return a, log') => f a log'
    | (Raise e, log') => (Raise e, log')
    | (OutOfFuel, log') => (OutOfFuel, log')
    end.

Definition lift {A} (r : exn + A) : M A :=
  match r with
  | inl e => raise e
  | inr a => ret a
  end.

(** [try: m  except HttpError as e: handler e]. *)
Definition try_except_HttpError {A} (m : M A)
    (handler : option value -> M A) : M A :=
  fun log =>
    match m log with
    | (Raise (HttpError content), log') => handler content log'
    | r => r
    end.

Notation "x <- m ;; k" := (bind m (fun x => k))
  (at level 100, m at next level, right associativity).

(** [request.execute()]: one network request, logged whatever its end. *)
Definition execute (self : YouTubeAPIManager) (r : request) : M value :=
  fun log =>
    match youtube self log r with
    | Body response => (Return response, log ++ [r])
    | HttpFailure content => (Raise (HttpError content), log ++ [r])
    | OtherFailure => (Raise TransportError, log ++ [r])
    end.

(** The number of network requests issued so far. *)
Definition request_count (log : list request) : nat := length log.

(** [json.loads(e.content.decode('utf-8'))]. *)
Definition json_loads_content (content : option value) : exn + value :=
  match content with
  | Some j => inr j
  | None => inl DecodeError
  end.

(** Sequencing of operations that only compute or raise. *)
Definition and_then {A B} (r : exn + A) (f : A -> exn + B) : exn + B :=
  match r with
  | inl e => inl e
  | inr a => f a
  end.

Notation "x <~ r ;; k" := (and_then r (fun x => k))
  (at level 100, r at next level, right associativity).

(** [v[a][b]], [v[a][b][c]] and [v[a].get(b, default)]. *)
Definition getitem2 (v : value) (a b : string) : exn + value :=
  x <~ getitem v a ;; getitem x b.

Definition getitem3 (v : value) (a b c : string) : exn + value :=
  x <~ getitem v a ;; y <~ getitem x b ;; getitem y c.

Definition getitem_get (v : value) (a b : string) (default : value)
  : exn + value :=
  x <~ getitem v a ;; py_get x b default.

(** ** The metadata client *)

(** The Python library functions that the client calls are parameters
    of the development.  [repr_other v] is [str(v)] for a [v] that is not
    a [str]; [strptime] is [datetime.strptime], which raises on a string
    that does not match the format; [datetime_lt a b] is [a < b], which
    raises on a naive and an aware operand. *)
Class PyLib : Type := {
  repr_other : value -> string;
  datetime : Type;
  strptime : value -> string -> exn + datetime;
  datetime_lt : datetime -> datetime -> exn + bool
}.

Section Client.

Context {lib : PyLib}.

(** The text that [{v}] contributes to an f-string. *)
Definition format_value (v : value) : string :=
  match v with
  | VStr s => s
  | _ => repr_other v
  end.

Definition watch_url_prefix : string := "https://www.youtube.com/watch?v=".

(** The value built in each [except HttpError as e] block:
    [{"error": f"API Error: {error_details['error']['message']}"}]. *)
Definition api_error (content : option value) : exn + dict :=
  error_details <~ json_loads_content content ;;
  message <~ getitem2 error_details "error" "message" ;;
  inr [("error", VStr ("API Error: " +:+ format_value message))].

Definition channels_part : string := "snippet,contentDetails,statistics".

(** The dictionary returned at lines 67-80. *)
Definition channel_summary (channel_data : value) : exn + dict :=
  id <~ getitem channel_data "id" ;;
  title <~ getitem2 channel_data "snippet" "title" ;;
  description <~ getitem2 channel_data "snippet" "description" ;;
  customUrl <~ getitem_get channel_data "snippet" "customUrl" (VStr "") ;;
  publishedAt <~ getitem2 channel_data "snippet" "publishedAt" ;;
  thumbnails <~ getitem2 channel_data "snippet" "thumbnails" ;;
  country <~ getitem_get channel_data "snippet" "country" (VStr "") ;;
  viewCount <~ getitem_get channel_data "statistics" "viewCount" (VInt 0) ;;
  subscriberCount <~
    getitem_get channel_data "statistics" "subscriberCount" (VInt 0) ;;
  hiddenSubscriberCount <~
    getitem_get channel_data "statistics" "hiddenSubscriberCount"
      (VBool false) ;;
  videoCount <~ getitem_get channel_data "statistics" "videoCount" (VInt 0) ;;
  uploads <~
    getitem3 channel_data "contentDetails" "relatedPlaylists" "uploads" ;;
  inr [ ("id", id);
        ("title", title);
        ("description", description);
        ("customUrl", customUrl);
        ("publishedAt", publishedAt);
        ("thumbnails", thumbnails);
        ("country", country);
        ("viewCount", viewCount);
        ("subscriberCount", subscriberCount);
        ("hiddenSubscriberCount", hiddenSubscriberCount);
        ("videoCount", videoCount);
        ("uploads_playlist", uploads) ].

(** What follows [response = request.execute()] in [get_channel_info]. *)
Definition channel_of_response (response : value) : exn + dict :=
  items <~ py_get response "items" VNone ;;
  if negb (truthy items) then inr [("error", VStr "Channel not found")]
  else
    channel_data <~ (items <~ getitem response "items" ;; getitem0 items) ;;
    channel_summary channel_data.

(** The request built at lines 49-58. *)
Definition channels_request (channel_id username : option string) : request :=
  if truthy_str channel_id
  then ChannelsList channels_part channel_id None
  else ChannelsList channels_part None username.

Definition get_channel_info (self : YouTubeAPIManager)
    (channel_id username : option string) : M dict :=
  if negb (truthy_str channel_id) && negb (truthy_str username) then
    raise (ValueError "Either channel_id or username must be provided")
  else
    try_except_HttpError
      (response <- execute self (channels_request channel_id username) ;;
       lift (channel_of_response response))
      (fun content => lift (api_error content)).

(** The dictionary built at lines 149-158. *)
Definition video_summary (item : value) : exn + dict :=
  id <~ getitem2 item "contentDetails" "videoId" ;;
  title <~ getitem2 item "snippet" "title" ;;
  description <~ getitem2 item "snippet" "description" ;;
  publishedAt <~ getitem2 item "snippet" "publishedAt" ;;
  thumbnails <~ getitem2 item "snippet" "thumbnails" ;;
  channelId <~ getitem2 item "snippet" "channelId" ;;
  channelTitle <~ getitem2 item "snippet" "channelTitle" ;;
  url_id <~ getitem2 item "contentDetails" "videoId" ;;
  inr [ ("id", id);
        ("title", title);
        ("description", description);
        ("publishedAt", publishedAt);
        ("thumbnails", thumbnails);
        ("channelId", channelId);
        ("channelTitle", channelTitle);
        ("url", VStr (watch_url_prefix +:+ format_value url_id)) ].

Definition publishedAt_format : string := "%Y-%m-%dT%H:%M:%SZ".

(** Lines 141-147: [true] when the item is skipped by [continue].  A
    [datetime] is truthy, so the filter is on exactly when
    [published_after] is not [None]. *)
Definition skipped (published_after : option datetime) (item : value)
  : exn + bool :=
  match published_after with
  | None => inr false
  | Some after =>
      stamp <~ getitem2 item "snippet" "publishedAt" ;;
      published_at <~ strptime stamp publishedAt_format ;;
      datetime_lt published_at after
  end.

(** The [for item in response['items']] loop, from a list [videos]. *)
Fixpoint for_items (published_after : option datetime) (items : list value)
    (videos : list dict) : exn + list dict :=
  match items with
  | [] => inr videos
  | item :: rest =>
      skip <~ skipped published_after item ;;
      if (skip : bool) then for_items published_after rest videos
      else
        video_data <~ video_summary item ;;
        for_items published_after rest (videos ++ [video_data])
  end.

Definition playlist_part : string := "snippet,contentDetails".

(** [len(videos)]. *)
Definition len {A} (l : list A) : Z := Z.of_nat (length l).

(** The [maxResults] argument of line 133. *)
Definition page_size (max_results : option Z) (videos : list dict) : Z :=
  Z.min 50
    (match max_results with
     | Some n => if truthy_int max_results then n - len videos else 50
     | None => 50
     end).

(** The test of line 127. *)
Definition cap_reached (max_results : option Z) (videos : list dict) : bool :=
  match max_results with
  | Some n => truthy_int max_results && (len videos >=? n)
  | None => false
  end.

(** The request built at lines 130-135. *)
Definition playlist_request (max_results : option Z) (videos : list dict)
    (uploads_playlist_id next_page_token : value) : request :=
  PlaylistItemsList playlist_part uploads_playlist_id
    (page_size max_results videos) next_page_token.

(** The [while True] loop of lines 125-165; [fuel] bounds the number of
    iterations that are started. *)
Fixpoint fetch_pages (fuel : nat) (self : YouTubeAPIManager)
    (max_results : option Z) (published_after : option datetime)
    (uploads_playlist_id : value) (videos : list dict)
    (next_page_token : value) : M (list dict) :=
  match fuel with
  | O => fun log => (OutOfFuel, log)
  | S fuel' =>
      if cap_reached max_results videos then ret videos
      else
        response <-
          execute self
            (playlist_request max_results videos uploads_playlist_id
               next_page_token) ;;
        items <- lift (items <~ getitem response "items" ;; iterate items) ;;
        videos' <- lift (for_items published_after items videos) ;;
        next_page_token' <- lift (py_get response "nextPageToken" VNone) ;;
        if negb (truthy next_page_token') then ret videos'
        else
          fetch_pages fuel' self max_results published_after
            uploads_playlist_id videos' next_page_token'
  end.

Definition get_all_videos (fuel : nat) (self : YouTubeAPIManager)
    (channel_id username : option string) (max_results : option Z)
    (published_after : option datetime) : M (list dict) :=
  if negb (truthy_str channel_id) && negb (truthy_str username) then
    raise (ValueError "Either channel_id or username must be provided")
  else
    try_except_HttpError
      (channel_info <-
         (if truthy_str username && negb (truthy_str channel_id)
          then get_channel_info self None username
          else get_channel_info self channel_id None) ;;
       if dict_mem "error" channel_info then
         err <- lift (getitem (VDict channel_info) "error") ;;
         ret [[("error", err)]]
       else
         _ <- (if truthy_str username && negb (truthy_str channel_id)
               then lift (getitem (VDict channel_info) "id")
               else ret VNone) ;;
         uploads_playlist_id <-
           lift (getitem (VDict channel_info) "uploads_playlist") ;;
         fetch_pages fuel self max_results published_after
           uploads_playlist_id [] VNone)
      (fun content => e <- lift (api_error content) ;; ret [e]).

(** The dictionary returned at lines 199-214. *)
Definition video_detail (video_data : value) : exn + dict :=
  id <~ getitem video_data "id" ;;
  title <~ getitem2 video_data "snippet" "title" ;;
  description <~ getitem2 video_data "snippet" "description" ;;
  publishedAt <~ getitem2 video_data "snippet" "publishedAt" ;;
  thumbnails <~ getitem2 video_data "snippet" "thumbnails" ;;
  channelId <~ getitem2 video_data "snippet" "channelId" ;;
  channelTitle <~ getitem2 video_data "snippet" "channelTitle" ;;
  tags <~ getitem_get video_data "snippet" "tags" (VList []) ;;
  categoryId <~ getitem_get video_data "snippet" "categoryId" (VStr "") ;;
  duration <~ getitem2 video_data "contentDetails" "duration" ;;
  viewCount <~ getitem_get video_data "statistics" "viewCount" (VInt 0) ;;
  likeCount <~ getitem_get video_data "statistics" "likeCount" (VInt 0) ;;
  commentCount <~
    getitem_get video_data "statistics" "commentCount" (VInt 0) ;;
  url_id <~ getitem video_data "id" ;;
  inr [ ("id", id);
        ("title", title);
        ("description", description);
        ("publishedAt", publishedAt);
        ("thumbnails", thumbnails);
        ("channelId", channelId);
        ("channelTitle", channelTitle);
        ("tags", tags);
        ("categoryId", categoryId);
        ("duration", duration);
        ("viewCount", viewCount);
        ("likeCount", likeCount);
        ("commentCount", commentCount);
        ("url", VStr (watch_url_prefix +:+ format_value url_id)) ].

(** What follows [response = request.execute()] in [get_video_details]. *)
Definition video_of_response (response : value) : exn + dict :=
  items <~ py_get response "items" VNone ;;
  if negb (truthy items) then inr [("error", VStr "Video not found")]
  else
    video_data <~ (items <~ getitem response "items" ;; getitem0 items) ;;
    video_detail video_data.

(** The request built at lines 187-190. *)
Definition videos_request (video_id : string) : request :=
  VideosList channels_part video_id.

Definition get_video_details (self : YouTubeAPIManager) (video_id : string)
  : M dict :=
  try_except_HttpError
    (response <- execute self (videos_request video_id) ;;
     lift (video_of_response response))
    (fun content => lift (api_error content)).

End Client.

(** ** The transcript helper *)

Module Transcriptor.

(** One element of the fetched transcript; [start] and [duration] are
    not read by the helper. *)
Record snippet : Type := { text : string }.

(** What the helper reaches outside Python: the transcript service
    ([YouTubeTranscriptApi().fetch], which returns the snippets or
    raises); the text layer of [open(path, "w")], which is given no
    [encoding] and so translates newlines and encodes a [str] as the
    platform prefers, or raises; and what [open] raises on account of
    the path alone, if anything: [ValueError] for an embedded NUL,
    [OSError] for a name that is too long or that the platform does not
    allow.  A [str] is a [string] whose characters are the code points
    below 256. *)
Record platform : Type := {
  fetch : string -> list string -> exn + list snippet;
  text_encode : string -> exn + list Byte.byte;
  open_error : string -> option exn
}.

(** A file system maps a path, as it is spelled, to what is there:
    paths are POSIX paths, of which ["/"] is the only separator, and two
    spellings are two files.  The working directory exists and
    everything is permitted. *)
Inductive node : Type :=
| Dir
| File (content : list Byte.byte).

Abbreviation filesystem := (gmap string node).

(** [os.path.isdir(path)]. *)
Definition isdir (fs : filesystem) (path : string) : bool :=
  match fs !! path with
  | Some Dir => true
  | _ => false
  end.

(** [os.mkdir(path)], for a path directly under the working directory. *)
Definition mkdir (fs : filesystem) (path : string) : exn + filesystem :=
  match fs !! path with
  | Some _ => inl FileExistsError
  | None => inr (<[path := Dir]> fs)
  end.

(** A path split at its last ["/"]. *)
Fixpoint rsplit (path : string) : option (string * string) :=
  match path with
  | EmptyString => None
  | String c rest =>
      match rsplit rest with
      | Some (d, b) => Some (String c d, b)
      | None => if Ascii.eqb c "/" then Some (EmptyString, rest) else None
      end
  end.

(** The directory that holds [path]; ["."] for a bare name. *)
Definition parent (path : string) : string :=
  match rsplit path with
  | Some (d, _) => d
  | None => "."
  end.

(** [open(path, "w")]: unless the path is refused, or names a
    directory, or lies in no directory, the file is created or
    truncated. *)
Definition open_w (p : platform) (fs : filesystem) (path : string)
  : exn + filesystem :=
  match open_error p path with
  | Some e => inl e
  | None =>
      match fs !! path with
      | Some Dir => inl IsADirectoryError
      | _ =>
          if isdir fs (parent path) || String.eqb (parent path) "."
          then inr (<[path := File []]> fs)
          else inl FileNotFoundError
      end
  end.

Definition transcriptions_dir : string := "./transcriptions".

(** The path of line 18: [f"./transcriptions/{video_id}.txt"]. *)
Definition transcript_path (video_id : string) : string :=
  "./transcriptions/" +:+ video_id +:+ ".txt".

(** [" ".join(snippet.text for snippet in fetched_transcript)]. *)
Definition caption_of (fetched_transcript : list snippet) : string :=
  String.concat " " (map text fetched_transcript).

(** [YoutubeTranscriptor.transcript]; the result pairs how the call ends
    with the file system it leaves. *)
Definition transcript (p : platform) (video_id : string)
    (languages : list string) (fs : filesystem) : outcome unit * filesystem :=
  match fetch p video_id languages with
  | inl e => (Raise e, fs)
  | inr fetched_transcript =>
      let caption := caption_of fetched_transcript in
      match (if negb (isdir fs transcriptions_dir)
             then mkdir fs transcriptions_dir
             else inr fs) with
      | inl e => (Raise e, fs)
      | inr fs1 =>
          match open_w p fs1 (transcript_path video_id) with
          | inl e => (Raise e, fs1)
          | inr fs2 =>
              match text_encode p caption with
              | inl e => (Raise e, fs2)
              | inr bytes =>
                  (Return tt, <[transcript_path video_id := File bytes]> fs2)
              end
          end
      end
  end.

(** Two encodings of a [str] of code points below 256. *)
Definition latin1_encode (s : string) : exn + list Byte.byte :=
  inr (list_byte_of_string s).

Definition utf8_char (c : ascii) : list Byte.byte :=
  let n := N_of_ascii c in
  if (n <? 128)%N then [byte_of_ascii c]
  else [byte_of_ascii (ascii_of_N (192 + n / 64));
        byte_of_ascii (ascii_of_N (128 + n mod 64))].

Definition utf8_encode (s : string) : exn + list Byte.byte :=
  inr (flat_map utf8_char (list_ascii_of_string s)).

(** What [open] raises for a path on a POSIX platform: an embedded NUL
    is refused by Python, a last component of more than 255 bytes or a
    path of more than 4095 by the system. *)
Fixpoint has_nul (s : string) : bool :=
  match s with
  | EmptyString => false
  | String c rest => Ascii.eqb c zero || has_nul rest
  end.

Definition byte_length (s : string) : nat :=
  length (flat_map utf8_char (list_ascii_of_string s)).

Definition last_component (path : string) : string :=
  match rsplit path with
  | Some (_, name) => name
  | None => path
  end.

Definition posix_open_error (path : string) : option exn :=
  if has_nul path then Some (ValueError "embedded null byte")
  else if (255 <? byte_length (last_component path))%nat then Some OSError
  else if (4095 <? byte_length path)%nat then Some OSError
  else None.

(** A video id without path separator. *)
Fixpoint no_slash (s : string) : bool :=
  match s with
  | EmptyString => true
  | String c rest => negb (Ascii.eqb c "/") && no_slash rest
  end.

(** Platforms and a file system to run the helper on. *)
Definition two_lines : list snippet :=
  [ {| text := "caf" +:+ String (ascii_of_N 233) "" |};
    {| text := "noir" |} ].

Definition utf8_platform : platform :=
  {| fetch := fun _ _ => inr two_lines;
     text_encode := utf8_encode;
     open_error := posix_open_error |}.

Definition latin1_platform : platform :=
  {| fetch := fun _ _ => inr two_lines;
     text_encode := latin1_encode;
     open_error := posix_open_error |}.

Definition no_transcript_platform : platform :=
  {| fetch := fun _ _ => inl TranscriptError;
     text_encode := utf8_encode;
     open_error := posix_open_error |}.

Definition unencodable_platform : platform :=
  {| fetch := fun _ _ => inr two_lines;
     text_encode := fun _ => inl UnicodeEncodeError;
     open_error := posix_open_error |}.

(** A video id that holds a NUL. *)
Definition nul_id : string := "a" +:+ String zero "b".

Definition old_files : filesystem :=
  {[ "./transcriptions" := Dir;
     "./transcriptions/abc.txt" := File [Byte.x00] ]}.

End Transcriptor.

(** ** Stubs of the remote service *)

(** A channel as a stub holds it: its uploads are in upload order. *)
Record upload : Type := {
  up_id : string;
  up_title : string;
  up_description : string;
  up_publishedAt : string
}.

Record channel : Type := {
  ch_id : string;
  ch_username : string;
  ch_title : string;
  ch_uploads : string;
  ch_videos : list upload;
  ch_page_limit : nat      (* the provider's own bound on a page *)
}.

Definition channel_item (c : channel) : value :=
  VDict
    [ ("id", VStr (ch_id c));
      ("snippet",
        VDict [ ("title", VStr (ch_title c));
                ("description", VStr "");
                ("publishedAt", VStr "2007-08-23T00:34:43Z");
                ("thumbnails", VDict []) ]);
      ("contentDetails",
        VDict [ ("relatedPlaylists",
                  VDict [("uploads", VStr (ch_uploads c))]) ]);
      ("statistics",
        VDict [ ("viewCount", VStr "0");
                ("videoCount", VInt (len (ch_videos c))) ]) ].

Definition playlist_item (c : channel) (u : upload) : value :=
  VDict
    [ ("snippet",
        VDict [ ("publishedAt", VStr (up_publishedAt u));
                ("channelId", VStr (ch_id c));
                ("title", VStr (up_title u));
                ("description", VStr (up_description u));
                ("thumbnails", VDict []);
                ("channelTitle", VStr (ch_title c)) ]);
      ("contentDetails", VDict [("videoId", VStr (up_id u))]) ].

Definition video_item (c : channel) (u : upload) : value :=
  VDict
    [ ("id", VStr (up_id u));
      ("snippet",
        VDict [ ("publishedAt", VStr (up_publishedAt u));
                ("channelId", VStr (ch_id c));
                ("title", VStr (up_title u));
                ("description", VStr (up_description u));
                ("thumbnails", VDict []);
                ("channelTitle", VStr (ch_title c)) ]);
      ("contentDetails", VDict [("duration", VStr "PT1M")]);
      ("statistics", VDict [("viewCount", VStr "1")]) ].

(** The record that [get_all_videos] is expected to build for an upload. *)
Definition summary_of (c : channel) (u : upload) : dict :=
  [ ("id", VStr (up_id u));
    ("title", VStr (up_title u));
    ("description", VStr (up_description u));
    ("publishedAt", VStr (up_publishedAt u));
    ("thumbnails", VDict []);
    ("channelId", VStr (ch_id c));
    ("channelTitle", VStr (ch_title c));
    ("url", VStr (watch_url_prefix +:+ up_id u)) ].

(** The record that [get_channel_info] is expected to build for the
    stub's channel. *)
Definition channel_record (c : channel) : dict :=
  [ ("id", VStr (ch_id c));
    ("title", VStr (ch_title c));
    ("description", VStr "");
    ("customUrl", VStr "");
    ("publishedAt", VStr "2007-08-23T00:34:43Z");
    ("thumbnails", VDict []);
    ("country", VStr "");
    ("viewCount", VStr "0");
    ("subscriberCount", VInt 0);
    ("hiddenSubscriberCount", VBool false);
    ("videoCount", VInt (len (ch_videos c)));
    ("uploads_playlist", VStr (ch_uploads c)) ].

(** The body of a structured error of the provider. *)
Definition error_body (code : Z) (message : string) : value :=
  VDict [("error", VDict [("code", VInt code); ("message", VStr message)])].

(** Continuation cursors of the stub: the offset of the next page, in
    unary; the cursor of a later page is never the empty string. *)
Fixpoint unary (n : nat) : string :=
  match n with
  | O => EmptyString
  | S n' => String "p" (unary n')
  end.

Definition token_of_offset (n : nat) : value := VStr (unary n).

Definition offset_of_token (v : value) : option nat :=
  match v with
  | VNone => Some O
  | VStr s => Some (String.length s)
  | _ => None
  end.

Definition stub_page (c : channel) (m : Z) (o : nat) : value :=
  let page :=
    firstn (Nat.min (Z.to_nat m) (ch_page_limit c)) (skipn o (ch_videos c)) in
  let next := (o + length page)%nat in
  VDict
    (("items", VList (map (playlist_item c) page))
       :: (if (next <? length (ch_videos c))%nat
           then [("nextPageToken", token_of_offset next)]
           else [])).

Definition is_some_str (o : option string) (s : string) : bool :=
  match o with
  | Some s' => String.eqb s' s
  | None => false
  end.

Definition is_str (v : value) (s : string) : bool :=
  match v with
  | VStr s' => String.eqb s' s
  | _ => false
  end.

(** A well-behaved provider that serves one channel: a page holds as
    many of the remaining uploads as were asked for, up to the
    provider's own bound, and carries a cursor exactly when uploads
    remain after it. *)
Definition stub (c : channel) : transport :=
  fun _ r =>
    match r with
    | ChannelsList _ id forUsername =>
        if is_some_str id (ch_id c) || is_some_str forUsername (ch_username c)
        then Body (VDict [("items", VList [channel_item c])])
        else Body (VDict [("items", VList [])])
    | PlaylistItemsList _ playlistId maxResults pageToken =>
        if negb (is_str playlistId (ch_uploads c))
        then HttpFailure (Some (error_body 404 "The playlist cannot be found."))
        else if (maxResults <? 0) || (50 <? maxResults)
        then HttpFailure (Some (error_body 400 "Invalid value for maxResults."))
        else
          match offset_of_token pageToken with
          | Some o => Body (stub_page c maxResults o)
          | None => HttpFailure (Some (error_body 400 "Invalid page token."))
          end
    | VideosList _ id =>
        match find (fun u => String.eqb (up_id u) id) (ch_videos c) with
        | Some u => Body (VDict [("items", VList [video_item c u])])
        | None => Body (VDict [("items", VList [])])
        end
    end.

Definition stub_manager (c : channel) : YouTubeAPIManager :=
  {| api_key := "key"; youtube := stub c |}.

(** The identifiers under which [get_all_videos] finds the stub's channel. *)
Definition identifies (c : channel) (channel_id username : option string)
  : Prop :=
  (channel_id = Some (ch_id c) /\ ch_id c <> "")
  \/ (truthy_str channel_id = false
      /\ username = Some (ch_username c) /\ ch_username c <> "").

(** A provider whose every page carries a cursor. *)
Definition endless (c : channel) : transport :=
  fun log r =>
    match r with
    | PlaylistItemsList _ _ _ _ =>
        Body (VDict [("items", VList []); ("nextPageToken", VStr "again")])
    | _ => stub c log r
    end.

(** A client without network, one that loses the connection after the
    first page of a listing, and a gateway that answers every request
    with an error page that is not JSON. *)
Definition offline : transport := fun _ _ => OtherFailure.

Definition connection_lost_after_first_page (c : channel) : transport :=
  fun log r =>
    match r with
    | PlaylistItemsList _ _ _ (VStr _) => OtherFailure
    | _ => stub c log r
    end.

Definition html_error_page : transport := fun _ _ => HttpFailure None.

(** A provider that has run out of quota, and one that runs out of it
    after the first page of a listing. *)
Definition quota_exceeded : transport :=
  fun _ _ => HttpFailure (Some (error_body 403 "Quota exceeded.")).

Definition quota_after_first_page (c : channel) : transport :=
  fun log r =>
    match r with
    | PlaylistItemsList _ _ _ (VStr _) => quota_exceeded log r
    | _ => stub c log r
    end.

(** The replies that the client turns into an error record. *)
Definition zero_items (response : value) : Prop :=
  exists items, py_get response "items" VNone = inr items
                /\ truthy items = false.

Definition structured_error (content : option value)
    (message : value) : Prop :=
  exists error_details,
    content = Some error_details
    /\ getitem2 error_details "error" "message" = inr message.

(** A returned record that is an error record. *)
Definition is_error (r : dict) : bool := dict_mem "error" r.

(** ** An instance of the library, and a channel, to run the client on *)

Definition is_digit (c : ascii) : bool :=
  (48 <=? N_of_ascii c)%N && (N_of_ascii c <=? 57)%N.

(** [scan pattern s acc]: [s] read against a pattern in which ["d"] is a
    decimal digit; the digits read are accumulated in [acc]. *)
Fixpoint scan (pattern s : string) (acc : Z) : option Z :=
  match pattern, s with
  | EmptyString, EmptyString => Some acc
  | String p pattern', String c s' =>
      if Ascii.eqb p "d" then
        if is_digit c
        then scan pattern' s' (10 * acc + (Z.of_N (N_of_ascii c) - 48))
        else None
      else if Ascii.eqb p c then scan pattern' s' acc else None
  | _, _ => None
  end.

(** A strict reading of ["%Y-%m-%dT%H:%M:%SZ"]: fields of fixed width.
    A naive datetime is the number YYYYMMDDhhmmss, ordered as numbers.
    This instance only serves to run the client on examples; it is not
    Python's library (the fields are not range-checked and every value
    that is not a [str] prints as ["<object>"]), and no theorem on the
    client depends on it. *)
Definition strict_lib : PyLib :=
  {| repr_other := fun _ => "<object>";
     datetime := Z;
     strptime := fun v _ =>
       match v with
       | VStr s =>
           match scan "dddd-dd-ddTdd:dd:ddZ" s 0 with
           | Some z => inr z
           | None => inl (ValueError "time data does not match format")
           end
       | _ => inl TypeError
       end;
     datetime_lt := fun a b => inr (a <? b) |}.

Definition demo_channel : channel :=
  {| ch_id := "UC1"; ch_username := "demo"; ch_title := "Demo";
     ch_uploads := "UU1";
     ch_videos :=
       [ {| up_id := "v3"; up_title := "three"; up_description := "";
            up_publishedAt := "2024-03-01T10:00:00Z" |};
         {| up_id := "v2"; up_title := "two"; up_description := "";
            up_publishedAt := "2024-02-01T10:00:00Z" |};
         {| up_id := "v1"; up_title := "one"; up_description := "";
            up_publishedAt := "2024-01-01T10:00:00Z" |} ];
     ch_page_limit := 2 |}.

Definition demo : YouTubeAPIManager := stub_manager demo_channel.

(** The demonstration channel under the id that [main.py] asks for, and
    an environment that holds a key. *)
Definition developers_channel : channel :=
  {| ch_id := "UC_x5XG1OV2P6uZZ5FSM9Ttw"; ch_username := "demo";
     ch_title := "Demo"; ch_uploads := "UU1";
     ch_videos := ch_videos demo_channel; ch_page_limit := 2 |}.

Definition with_key : gmap string string :=
  {[ "YOUTUBE_API_KEY" := "secret" ]}.

Definition build_stub (c : channel)
  : string -> string -> string -> exn + transport :=
  fun _ _ _ => inr (stub c).

(** 2024-01-15 00:00:00, between the first and the second upload. *)
Definition mid_january : @datetime strict_lib := 20240115000000%Z.

(** ** Definitions used to state the properties *)

Section Statements.

Context {lib : PyLib}.

(** What one fetched page yields: the records to append and the cursor. *)
Definition page_result (published_after : option datetime)
    (response : value) (videos : list dict) : exn + (list dict * value) :=
  items <~ (items <~ getitem response "items" ;; iterate items) ;;
  videos' <~ for_items published_after items videos ;;
  next_page_token <~ py_get response "nextPageToken" VNone ;;
  inr (videos', next_page_token).

(** The records that the items of a page contribute: one for each item
    that is not skipped. *)
Definition page_records (published_after : option datetime)
    (items : list value) : list dict :=
  flat_map
    (fun item =>
       match skipped published_after item, video_summary item with
       | inr false, inr video_data => [video_data]
       | _, _ => []
       end)
    items.

(** The record has an id and the watch URL of that id. *)
Definition has_watch_url (r : dict) : Prop :=
  exists id,
    dict_lookup "id" r = Some id
    /\ dict_lookup "url" r = Some (VStr (watch_url_prefix +:+ format_value id)).

(** The record's publish timestamp parses and is not strictly before
    [after]. *)
Definition not_before (after : datetime) (r : dict) : Prop :=
  exists stamp published_at,
    dict_lookup "publishedAt" r = Some stamp
    /\ strptime stamp publishedAt_format = inr published_at
    /\ datetime_lt published_at after = inr false.

(** No page holds more items than the request asked for. *)
Definition page_bounded (self : YouTubeAPIManager) : Prop :=
  forall log part playlistId maxResults pageToken response items its,
    youtube self log (PlaylistItemsList part playlistId maxResults pageToken)
      = Body response ->
    getitem response "items" = inr items ->
    iterate items = inr its ->
    len its <= maxResults.

(** The reply carries no continuation cursor. *)
Definition no_cursor (r : reply) : Prop :=
  exists response next_page_token,
    r = Body response
    /\ py_get response "nextPageToken" VNone = inr next_page_token
    /\ truthy next_page_token = false.

(** The last request of the log was answered without a cursor. *)
Definition stopped_without_cursor (self : YouTubeAPIManager)
    (log : list request) : Prop :=
  exists log0 req, log = log0 ++ [req] /\ no_cursor (youtube self log0 req).

(** A listing request asks for 50 items. *)
Definition asks_fifty (r : request) : Prop :=
  match r with
  | PlaylistItemsList _ _ maxResults _ => maxResults = 50
  | _ => True
  end.

(** The replies after which a lookup returns an error record. *)
Definition failure_reply (r : reply) : Prop :=
  match r with
  | Body response => zero_items response
  | HttpFailure _ => True
  | OtherFailure => False
  end.

(** The number of uploads that a listing capped at [max_results] reads
    from a collection of [k] uploads. *)
Definition target (max_results : option Z) (k : nat) : nat :=
  match max_results with
  | Some n =>
      if truthy_int max_results then Z.to_nat (Z.min n (Z.of_nat k)) else k
  | None => k
  end.

(** How a call ends when its last operation computes [r]. *)
Definition outcome_of {A} (r : exn + A) : outcome A :=
  match r with
  | inl e => Raise e
  | inr a => Return a
  end.

(** How a lookup ends on a reply, [on_body] being what it does with the
    body of a response. *)
Definition lookup_outcome (on_body : value -> exn + dict) (r : reply)
  : outcome dict :=
  match r with
  | Body response => outcome_of (on_body response)
  | HttpFailure content => outcome_of (api_error content)
  | OtherFailure => Raise TransportError
  end.

(** The sub-call of lines 109-117 that resolves the channel. *)
Definition resolve_channel (self : YouTubeAPIManager)
    (channel_id username : option string) : M dict :=
  if truthy_str username && negb (truthy_str channel_id)
  then get_channel_info self None username
  else get_channel_info self channel_id None.

(** The request that this sub-call executes. *)
Definition resolution_request (channel_id username : option string)
  : request :=
  if truthy_str username && negb (truthy_str channel_id)
  then channels_request None username
  else channels_request channel_id None.

(** The exceptions of subscripting, [get] and iteration. *)
Definition is_lookup_error (e : exn) : bool :=
  match e with
  | KeyError _ | TypeError | IndexError | AttributeError => true
  | _ => false
  end.

End Statements.

(** ** The constructor and the demonstration script *)

Section Script.

Context {lib : PyLib}.

Definition api_key_variable : string := "YOUTUBE_API_KEY".

Definition missing_key_message : string :=
  "API key not provided and YOUTUBE_API_KEY environment variable not set".

(** [YouTubeAPIManager.__init__]: [environ] is [os.environ] and [build]
    is [googleapiclient.discovery.build], which returns the service
    object or raises. *)
Definition init (build : string -> string -> string -> exn + transport)
    (environ : gmap string string) (api_key : option string)
  : exn + YouTubeAPIManager :=
  api_key <~
    match api_key with
    | None =>
        match environ !! api_key_variable with
        | None =>
            inl (ValueError missing_key_message)
        | Some key => inr key
        end
    | Some key => inr key
    end ;;
  service <~ build "youtube" "v3" api_key ;;
  inr {| api_key := api_key; youtube := service |}.

(** The script of [main.py] threads the requests executed and the lines
    printed on standard output. *)
Definition Script (A : Type) : Type :=
  list request * list string -> outcome A * (list request * list string).

Definition script_bind {A B} (m : Script A) (f : A -> Script B) : Script B :=
  fun st =>
    match m st with
    | (Return a, st') => f a st'
    | (Raise e, st') => (Raise e, st')
    | (OutOfFuel, st') => (OutOfFuel, st')
    end.

Notation "x <<- m ;; k" := (script_bind m (fun x => k))
  (at level 100, m at next level, right associativity).

(** A method call of the manager. *)
Definition call {A} (m : M A) : Script A :=
  fun st => let (r, log') := m (fst st) in (r, (log', snd st)).

(** An expression that only computes or raises. *)
Definition eval {A} (r : exn + A) : Script A :=
  fun st => (outcome_of r, st).

(** [print(line)]. *)
Definition print (line : string) : Script unit :=
  fun st => (Return tt, (fst st, snd st ++ [line])).

Definition google_developers : string := "UC_x5XG1OV2P6uZZ5FSM9Ttw".

Definition newline : string := String (ascii_of_nat 10) EmptyString.

(** Lines 14-15: [for video in videos: print(...)]. *)
Fixpoint print_videos (videos : list dict) : Script unit :=
  match videos with
  | [] => eval (inr tt)
  | video :: rest =>
      title <<- eval (getitem (VDict video) "title") ;;
      url <<- eval (getitem (VDict video) "url") ;;
      _ <<- print ("- " +:+ format_value title +:+ " (" +:+ format_value url
                   +:+ ")") ;;
      print_videos rest
  end.

(** Lines 18-23.  [get_video_details] is declared for a [str]: the id
    of the first record is passed as its text. *)
Definition print_details (manager : YouTubeAPIManager) (videos : list dict)
  : Script unit :=
  match videos with
  | [] => eval (inr tt)
  | first :: _ =>
      id <<- eval (getitem (VDict first) "id") ;;
      video_details <<- call (get_video_details manager (format_value id)) ;;
      title <<- eval (getitem (VDict video_details) "title") ;;
      _ <<- print (newline +:+ "Dettagli del video: " +:+ format_value title) ;;
      viewCount <<- eval (getitem (VDict video_details) "viewCount") ;;
      _ <<- print ("Visualizzazioni: " +:+ format_value viewCount) ;;
      likeCount <<- eval (getitem (VDict video_details) "likeCount") ;;
      _ <<- print ("Mi piace: " +:+ format_value likeCount) ;;
      commentCount <<- eval (getitem (VDict video_details) "commentCount") ;;
      print ("Commenti: " +:+ format_value commentCount)
  end.

(** The body of [if __name__ == "__main__"] in [main.py]. *)
Definition main (build : string -> string -> string -> exn + transport)
    (environ : gmap string string) (fuel : nat) : Script unit :=
  manager <<- eval (init build environ None) ;;
  channel_info <<-
    call (get_channel_info manager (Some google_developers) None) ;;
  title <<- eval (getitem (VDict channel_info) "title") ;;
  _ <<- print ("Nome del canale: " +:+ format_value title) ;;
  subscriberCount <<- eval (getitem (VDict channel_info) "subscriberCount") ;;
  _ <<- print ("Iscritti: " +:+ format_value subscriberCount) ;;
  videoCount <<- eval (getitem (VDict channel_info) "videoCount") ;;
  _ <<- print ("Video totali: " +:+ format_value videoCount) ;;
  videos <<-
    call (get_all_videos fuel manager (Some google_developers) None
            (Some 10) None) ;;
  _ <<- print "\Latest 10 videos:" ;;
  _ <<- print_videos videos ;;
  print_details manager videos.

(** What the script is expected to print against a stub whose channel
    is the one it asks for. *)
Definition video_line (u : upload) : string :=
  "- " +:+ up_title u +:+ " (" +:+ watch_url_prefix +:+ up_id u +:+ ")".

Definition script_output (c : channel) : list string :=
  [ "Nome del canale: " +:+ ch_title c;
    "Iscritti: " +:+ format_value (VInt 0);
    "Video totali: " +:+ format_value (VInt (len (ch_videos c)));
    "\Latest 10 videos:" ]
  ++ map video_line (firstn 10 (ch_videos c))
  ++ match ch_videos c with
     | [] => []
     | u :: _ =>
         [ newline +:+ "Dettagli del video: " +:+ up_title u;
           "Visualizzazioni: 1";
           "Mi piace: " +:+ format_value (VInt 0);
           "Commenti: " +:+ format_value (VInt 0) ]
     end.

End Script.

(** ** The requests of a listing, as a trace *)

Section Traces.

Context {lib : PyLib}.

(** [reqs], executed from [log], are listing requests of which the first
    carries [token] and each later one the cursor of the reply before
    it. *)
Fixpoint cursor_chain (self : YouTubeAPIManager) (log : list request)
    (token : value) (reqs : list request) : Prop :=
  match reqs with
  | [] => True
  | r :: rest =>
      (exists part playlist m, r = PlaylistItemsList part playlist m token)
      /\ (rest = []
          \/ exists response token',
               youtube self log r = Body response
               /\ py_get response "nextPageToken" VNone = inr token'
               /\ truthy token' = true
               /\ cursor_chain self (log ++ [r]) token' rest)
  end.

(** The records of the pages that answer [reqs], executed from [log], in
    the order of the requests. *)
Fixpoint collected (published_after : option datetime)
    (self : YouTubeAPIManager) (log : list request) (reqs : list request)
  : list dict :=
  match reqs with
  | [] => []
  | r :: rest =>
      match youtube self log r with
      | Body response =>
          match (items <~ getitem response "items" ;; iterate items) with
          | inr items =>
              page_records published_after items
              ++ collected published_after self (log ++ [r]) rest
          | inl _ => []
          end
      | _ => []
      end
  end.

(** A listing request for [playlist] that asks for 1 to 50 items. *)
Definition well_sized (playlist : value) (r : request) : Prop :=
  exists m token,
    r = PlaylistItemsList "snippet,contentDetails" playlist m token
    /\ 1 <= m <= 50.

(** The keys that [get_video_details] requires of a found video, and
    those that [get_channel_info] requires of a found channel. *)
Definition video_required (video_data : value) : Prop :=
  exists id snippet title description publishedAt thumbnails channelId
         channelTitle duration statistics,
    getitem video_data "id" = inr id
    /\ getitem video_data "snippet" = inr (VDict snippet)
    /\ dict_lookup "title" snippet = Some title
    /\ dict_lookup "description" snippet = Some description
    /\ dict_lookup "publishedAt" snippet = Some publishedAt
    /\ dict_lookup "thumbnails" snippet = Some thumbnails
    /\ dict_lookup "channelId" snippet = Some channelId
    /\ dict_lookup "channelTitle" snippet = Some channelTitle
    /\ getitem2 video_data "contentDetails" "duration" = inr duration
    /\ getitem video_data "statistics" = inr (VDict statistics).

(** Every page that carries a cursor adds a record to the list. *)
Definition makes_progress (self : YouTubeAPIManager)
    (max_results : option Z) (published_after : option datetime) : Prop :=
  forall log playlist videos token response videos' token',
    cap_reached max_results videos = false ->
    youtube self log (playlist_request max_results videos playlist token)
    = Body response ->
    page_result published_after response videos = inr (videos', token') ->
    truthy token' = true ->
    len videos < len videos'.

End Traces.

(** ** Properties of the metadata client *)

Section Properties.

Context {lib : PyLib}.

Ltac and_then_inv H :=
  unfold and_then in H;
  repeat match type of H with
         | context [match ?x with inl _ => _ | inr _ => _ end] =>
             destruct x eqn:?; try discriminate H
         end.

Lemma and_then_inr {A B} (r : exn + A) (f : A -> exn + B) (b : B) :
  and_then r f = inr b -> exists a, r = inr a /\ f a = inr b.
Proof.
  destruct r as [e | a]; simpl; [discriminate | eauto].
Qed.

(** *** The records *)

Lemma video_summary_url item r :
  video_summary item = inr r -> has_watch_url r.
Proof.
  intros H. unfold video_summary in H. and_then_inv H.
  injection H as <-. eexists. split; reflexivity.
Qed.

Lemma video_summary_publishedAt item r :
  video_summary item = inr r ->
  exists stamp, getitem2 item "snippet" "publishedAt" = inr stamp
                /\ dict_lookup "publishedAt" r = Some stamp.
Proof.
  intros H. unfold video_summary in H. and_then_inv H.
  injection H as <-. eexists. split; reflexivity.
Qed.

Lemma video_detail_url video_data r :
  video_detail video_data = inr r -> has_watch_url r.
Proof.
  intros H. unfold video_detail in H. and_then_inv H.
  injection H as <-. eexists. split; reflexivity.
Qed.

Lemma video_detail_no_error video_data r :
  video_detail video_data = inr r -> is_error r = false.
Proof.
  intros H. unfold video_detail in H. and_then_inv H.
  injection H as <-. reflexivity.
Qed.

Lemma channel_summary_no_error channel_data r :
  channel_summary channel_data = inr r -> is_error r = false.
Proof.
  intros H. unfold channel_summary in H. and_then_inv H.
  injection H as <-. reflexivity.
Qed.

Lemma api_error_shape content r :
  api_error content = inr r ->
  exists message,
    structured_error content message
    /\ r = [("error", VStr ("API Error: " +:+ format_value message))].
Proof.
  unfold api_error, json_loads_content. intros H.
  destruct content as [details |]; simpl in H; [| discriminate].
  destruct (getitem2 details "error" "message") as [e | message] eqn:E;
    simpl in H; [discriminate |].
  injection H as <-. exists message. split; [| reflexivity].
  exists details. auto.
Qed.

Lemma api_error_structured content message :
  structured_error content message ->
  api_error content
  = inr [("error", VStr ("API Error: " +:+ format_value message))].
Proof.
  intros (details & -> & E). unfold api_error. simpl. rewrite E. reflexivity.
Qed.

(** *** One page *)

Lemma for_items_records published_after items : forall videos videos',
  for_items published_after items videos = inr videos' ->
  videos' = videos ++ page_records published_after items.
Proof.
  induction items as [| item rest IH]; intros videos videos' H; simpl in *.
  - injection H as <-. now rewrite app_nil_r.
  - destruct (skipped published_after item) as [e | [|]]; simpl in H;
      try discriminate.
    + now apply IH in H.
    + destruct (video_summary item) as [e | video_data]; simpl in H;
        try discriminate.
      apply IH in H. now rewrite <- app_assoc in H.
Qed.

Lemma page_records_length published_after items :
  (length (page_records published_after items) <= length items)%nat.
Proof.
  induction items as [| item rest IH]; simpl; [lia |].
  rewrite length_app.
  destruct (skipped published_after item) as [e | [|]];
    destruct (video_summary item); simpl; lia.
Qed.

Lemma page_records_Forall (P : dict -> Prop) published_after items :
  (forall item video_data,
      skipped published_after item = inr false ->
      video_summary item = inr video_data -> P video_data) ->
  Forall P (page_records published_after items).
Proof.
  intros HP. induction items as [| item rest IH]; simpl; [constructor |].
  apply Forall_app. split; [| exact IH].
  destruct (skipped published_after item) as [e | [|]] eqn:Hs;
    destruct (video_summary item) eqn:Hv; repeat constructor; eauto.
Qed.

Lemma page_result_inr published_after response videos videos' t :
  page_result published_after response videos = inr (videos', t) ->
  exists items its,
    getitem response "items" = inr items
    /\ iterate items = inr its
    /\ videos' = videos ++ page_records published_after its
    /\ py_get response "nextPageToken" VNone = inr t.
Proof.
  unfold page_result. intros H.
  apply and_then_inr in H as (its & H1 & H).
  apply and_then_inr in H1 as (items & Hi & Hit).
  apply and_then_inr in H as (vs & Hf & H).
  apply and_then_inr in H as (tk & Ht & H).
  injection H as <- <-. apply for_items_records in Hf.
  exists items, its. auto.
Qed.

(** *** The loop, one iteration at a time *)

Lemma fetch_pages_S fuel self max_results published_after playlist videos
    token log :
  fetch_pages (S fuel) self max_results published_after playlist videos
    token log
  = if cap_reached max_results videos then (Return videos, log)
    else
      let req := playlist_request max_results videos playlist token in
      match youtube self log req with
      | Body response =>
          match page_result published_after response videos with
          | inl e => (Raise e, log ++ [req])
          | inr (videos', token') =>
              if truthy token'
              then fetch_pages fuel self max_results published_after
                     playlist videos' token' (log ++ [req])
              else (Return videos', log ++ [req])
          end
      | HttpFailure content => (Raise (HttpError content), log ++ [req])
      | OtherFailure => (Raise TransportError, log ++ [req])
      end.
Proof.
  simpl. destruct (cap_reached max_results videos); [reflexivity |].
  unfold bind, execute, page_result. simpl.
  destruct (youtube self log _) as [response | content |]; try reflexivity.
  destruct (getitem response "items") as [e | items]; simpl;
    [reflexivity |].
  destruct (iterate items) as [e | its]; simpl; [reflexivity |].
  destruct (for_items published_after its videos) as [e | videos']; simpl;
    [reflexivity |].
  destruct (py_get response "nextPageToken" VNone) as [e | token']; simpl;
    [reflexivity |].
  now destruct (truthy token').
Qed.

(** Every way out of the loop, and what it leaves. *)
Ltac loop_step fuel IH :=
  rewrite fetch_pages_S;
  destruct (cap_reached _ _) eqn:Hcap;
  [| cbv zeta;
     destruct (youtube _ _ _) as [response | content |] eqn:Hreply;
     [ destruct (page_result _ response _) as [e | [videos' token']] eqn:Hpage;
       [| destruct (truthy token') eqn:Htoken ]
     | | ] ].

Lemma fetch_pages_Forall (P : dict -> Prop) self max_results published_after
    playlist :
  (forall item video_data,
      skipped published_after item = inr false ->
      video_summary item = inr video_data -> P video_data) ->
  forall fuel videos token log l log',
    Forall P videos ->
    fetch_pages fuel self max_results published_after playlist videos
      token log = (Return l, log') ->
    Forall P l.
Proof.
  intros HP. induction fuel as [| fuel IH]; intros videos token log l log' Hv.
  - discriminate.
  - loop_step fuel IH; intros H; try discriminate.
    + now injection H as <- <-.
    + apply page_result_inr in Hpage as (items & its & _ & _ & -> & _).
      eapply IH; [| exact H].
      apply Forall_app. split; [exact Hv | now apply page_records_Forall].
    + injection H as <- <-.
      apply page_result_inr in Hpage as (items & its & _ & _ & -> & _).
      apply Forall_app. split; [exact Hv | now apply page_records_Forall].
Qed.

(** *** Which exceptions the lookups raise *)

Lemma getitem_error v k e : getitem v k = inl e -> is_lookup_error e = true.
Proof.
  destruct v; simpl; try (intros [= <-]; reflexivity).
  destruct (dict_lookup k d); intros [= <-]; reflexivity.
Qed.

Lemma py_get_error v k d e : py_get v k d = inl e -> is_lookup_error e = true.
Proof.
  destruct v as [| | | | | o]; simpl; try (intros [= <-]; reflexivity).
  destruct (dict_lookup k o); discriminate.
Qed.

Lemma getitem0_error v e : getitem0 v = inl e -> is_lookup_error e = true.
Proof.
  destruct v as [| | | [| ? ?] | [| ? ?] |]; simpl;
    try (intros [= <-]; reflexivity); discriminate.
Qed.

Lemma getitem2_error v a b e :
  getitem2 v a b = inl e -> is_lookup_error e = true.
Proof.
  unfold getitem2, and_then.
  destruct (getitem v a) eqn:E; [intros [= <-] | intros H];
    eauto using getitem_error.
Qed.

Lemma getitem3_error v a b c e :
  getitem3 v a b c = inl e -> is_lookup_error e = true.
Proof.
  unfold getitem3, and_then.
  destruct (getitem v a) as [? | x] eqn:E; [intros [= <-] |];
    eauto using getitem_error.
  destruct (getitem x b) eqn:E'; [intros [= <-] | intros H];
    eauto using getitem_error.
Qed.

Lemma getitem_get_error v a b d e :
  getitem_get v a b d = inl e -> is_lookup_error e = true.
Proof.
  unfold getitem_get, and_then.
  destruct (getitem v a) eqn:E; [intros [= <-] | intros H];
    eauto using getitem_error, py_get_error.
Qed.

Ltac lookup_errors H :=
  unfold and_then in H;
  repeat match type of H with
         | context [match ?x with inl _ => _ | inr _ => _ end] =>
             destruct x eqn:?;
             [ injection H as <-;
               eauto using getitem_error, py_get_error, getitem0_error,
                 getitem2_error, getitem3_error, getitem_get_error
             | ]
         end;
  try discriminate H.

Lemma channel_summary_error channel_data e :
  channel_summary channel_data = inl e -> is_lookup_error e = true.
Proof. intros H. unfold channel_summary in H. lookup_errors H. Qed.

Lemma video_detail_error video_data e :
  video_detail video_data = inl e -> is_lookup_error e = true.
Proof. intros H. unfold video_detail in H. lookup_errors H. Qed.

Lemma channel_of_response_error response e :
  channel_of_response response = inl e -> is_lookup_error e = true.
Proof.
  unfold channel_of_response, and_then.
  destruct (py_get response "items" VNone) as [? | items] eqn:E;
    [intros [= <-]; eauto using py_get_error |].
  destruct (truthy items); simpl; [| discriminate].
  destruct (getitem response "items") as [? | its] eqn:E1;
    [intros [= <-]; eauto using getitem_error |].
  destruct (getitem0 its) eqn:E2;
    [intros [= <-]; eauto using getitem0_error |].
  apply channel_summary_error.
Qed.

Lemma video_of_response_error response e :
  video_of_response response = inl e -> is_lookup_error e = true.
Proof.
  unfold video_of_response, and_then.
  destruct (py_get response "items" VNone) as [? | items] eqn:E;
    [intros [= <-]; eauto using py_get_error |].
  destruct (truthy items); simpl; [| discriminate].
  destruct (getitem response "items") as [? | its] eqn:E1;
    [intros [= <-]; eauto using getitem_error |].
  destruct (getitem0 its) eqn:E2;
    [intros [= <-]; eauto using getitem0_error |].
  apply video_detail_error.
Qed.

Lemma api_error_error content e :
  api_error content = inl e -> e = DecodeError \/ is_lookup_error e = true.
Proof.
  unfold api_error, and_then, json_loads_content.
  destruct content as [details |]; [| intros [= <-]; auto].
  destruct (getitem2 details "error" "message") eqn:E; [| discriminate].
  intros [= <-]. eauto using getitem2_error.
Qed.

(** *** How the two lookups run *)

Lemma lookup_run self req on_body log :
  (forall response e, on_body response = inl e -> is_lookup_error e = true) ->
  try_except_HttpError
    (response <- execute self req ;; lift (on_body response))
    (fun content => lift (api_error content)) log
  = (lookup_outcome on_body (youtube self log req), log ++ [req]).
Proof.
  intros Hpure. unfold try_except_HttpError, bind, execute, lookup_outcome.
  destruct (youtube self log req) as [response | content |]; simpl.
  - destruct (on_body response) as [e |] eqn:E; simpl; [| reflexivity].
    apply Hpure in E. now destruct e.
  - now destruct (api_error content).
  - reflexivity.
Qed.

Lemma get_channel_info_run self channel_id username log :
  truthy_str channel_id || truthy_str username = true ->
  get_channel_info self channel_id username log
  = (lookup_outcome channel_of_response
       (youtube self log (channels_request channel_id username)),
     log ++ [channels_request channel_id username]).
Proof.
  intros Hvalid. unfold get_channel_info.
  destruct (truthy_str channel_id), (truthy_str username);
    try discriminate; simpl negb; simpl andb; cbv iota;
    apply (lookup_run _ _ channel_of_response), channel_of_response_error.
Qed.

Lemma get_video_details_run self video_id log :
  get_video_details self video_id log
  = (lookup_outcome video_of_response
       (youtube self log (videos_request video_id)),
     log ++ [videos_request video_id]).
Proof.
  apply (lookup_run _ _ video_of_response), video_of_response_error.
Qed.

Lemma lookup_outcome_not_http on_body r content :
  (forall response e, on_body response = inl e -> is_lookup_error e = true) ->
  lookup_outcome on_body r <> Raise (HttpError content).
Proof.
  intros Hpure. destruct r as [response | c |]; simpl; [| | discriminate].
  - destruct (on_body response) eqn:E; simpl; [| discriminate].
    apply Hpure in E. intros [= ->]. discriminate.
  - destruct (api_error c) eqn:E; simpl; [| discriminate].
    apply api_error_error in E as [-> | E]; [discriminate |].
    intros [= ->]. discriminate.
Qed.

(** *** How the listing runs *)

Lemma validated_resolution channel_id username :
  truthy_str channel_id || truthy_str username = true ->
  (if truthy_str username && negb (truthy_str channel_id)
   then truthy_str None || truthy_str username
   else truthy_str channel_id || truthy_str None) = true.
Proof.
  destruct (truthy_str channel_id), (truthy_str username); auto.
Qed.

Lemma resolve_channel_run self channel_id username log :
  truthy_str channel_id || truthy_str username = true ->
  resolve_channel self channel_id username log
  = (lookup_outcome channel_of_response
       (youtube self log (resolution_request channel_id username)),
     log ++ [resolution_request channel_id username]).
Proof.
  intros Hvalid. unfold resolve_channel, resolution_request.
  pose proof (validated_resolution _ _ Hvalid) as H.
  destruct (truthy_str username && negb (truthy_str channel_id));
    now apply get_channel_info_run.
Qed.

Lemma get_all_videos_run fuel self channel_id username max_results
    published_after log :
  truthy_str channel_id || truthy_str username = true ->
  get_all_videos fuel self channel_id username max_results published_after
    log
  = let log1 := log ++ [resolution_request channel_id username] in
    match lookup_outcome channel_of_response
            (youtube self log (resolution_request channel_id username)) with
    | Return channel_info =>
        match dict_lookup "error" channel_info with
        | Some err => (Return [[("error", err)]], log1)
        | None =>
            match (if truthy_str username && negb (truthy_str channel_id)
                   then getitem (VDict channel_info) "id"
                   else inr VNone),
                  getitem (VDict channel_info) "uploads_playlist" with
            | inl e, _ => (Raise e, log1)
            | inr _, inl e => (Raise e, log1)
            | inr _, inr playlist =>
                match fetch_pages fuel self max_results published_after
                        playlist [] VNone log1 with
                | (Raise (HttpError content), log') =>
                    (outcome_of (e <~ api_error content ;; inr [e]), log')
                | r => r
                end
            end
        end
    | Raise e => (Raise e, log1)
    | OutOfFuel => (OutOfFuel, log1)
    end.
Proof.
  intros Hvalid. cbv zeta.
  pose proof (resolve_channel_run self _ _ log Hvalid) as Hres.
  unfold get_all_videos.
  replace (negb (truthy_str channel_id) && negb (truthy_str username))
    with false
    by (destruct (truthy_str channel_id), (truthy_str username);
        auto; discriminate).
  unfold try_except_HttpError at 1. unfold bind at 1.
  change (if truthy_str username && negb (truthy_str channel_id)
          then get_channel_info self None username
          else get_channel_info self channel_id None)
    with (resolve_channel self channel_id username).
  rewrite Hres.
  destruct (lookup_outcome _ _) as [channel_info | e |] eqn:Hout.
  - unfold dict_mem, bind, lift, ret, raise, getitem.
    destruct (dict_lookup "error" channel_info) as [err |]; [reflexivity |].
    destruct (truthy_str username && negb (truthy_str channel_id)).
    + destruct (dict_lookup "id" channel_info); [| reflexivity].
      destruct (dict_lookup "uploads_playlist" channel_info);
        [| reflexivity].
      destruct (fetch_pages _ _ _ _ _ _ _ _) as [[l | [] |] log'];
        try reflexivity.
      now destruct (api_error content).
    + destruct (dict_lookup "uploads_playlist" channel_info);
        [| reflexivity].
      destruct (fetch_pages _ _ _ _ _ _ _ _) as [[l | [] |] log'];
        try reflexivity.
      now destruct (api_error content).
  - destruct e; try reflexivity.
    now apply lookup_outcome_not_http in Hout;
      [| apply channel_of_response_error].
  - reflexivity.
Qed.

Lemma unvalidated_run fuel self channel_id username max_results
    published_after log out log' :
  truthy_str channel_id || truthy_str username = false ->
  get_all_videos fuel self channel_id username max_results published_after
    log = (out, log') ->
  out = Raise (ValueError "Either channel_id or username must be provided")
  /\ log' = log.
Proof.
  intros Hv. unfold get_all_videos.
  destruct (truthy_str channel_id), (truthy_str username); try discriminate.
  simpl. unfold raise. now intros [= <- <-].
Qed.

(** A returned list is one error record or the list that the loop
    returned. *)
Lemma get_all_videos_Return fuel self channel_id username max_results
    published_after log l log' :
  get_all_videos fuel self channel_id username max_results published_after
    log = (Return l, log') ->
  (exists err, l = [[("error", err)]])
  \/ (exists playlist log1,
        fetch_pages fuel self max_results published_after playlist [] VNone
          log1 = (Return l, log')).
Proof.
  destruct (truthy_str channel_id || truthy_str username) eqn:Hvalid.
  - rewrite get_all_videos_run by exact Hvalid. cbv zeta.
    destruct (lookup_outcome _ _) as [channel_info | e |]; try discriminate.
    destruct (dict_lookup "error" channel_info) as [err |].
    + intros [= <- <-]. eauto.
    + destruct (if _ : bool then _ else _) as [e | _]; [discriminate |].
      destruct (getitem _ _) as [e | playlist]; [discriminate |].
      destruct (fetch_pages _ _ _ _ _ _ _ _) as [[l0 | e |] log0] eqn:Hloop;
        try discriminate.
      * intros [= <- <-]. eauto.
      * destruct e; try discriminate.
        destruct (api_error content) as [e | r] eqn:Herr; [discriminate |].
        simpl. intros [= <- <-].
        apply api_error_shape in Herr as (message & _ & ->). eauto.
  - intros H. eapply unvalidated_run in H as [H _];
      [discriminate | exact Hvalid].
Qed.

Lemma get_all_videos_Forall (P : dict -> Prop) fuel self channel_id username
    max_results published_after log l log' :
  (forall item video_data,
      skipped published_after item = inr false ->
      video_summary item = inr video_data -> P video_data) ->
  get_all_videos fuel self channel_id username max_results published_after
    log = (Return l, log') ->
  Forall (fun r => is_error r = false -> P r) l.
Proof.
  intros HP H.
  apply get_all_videos_Return in H as [[err ->] | (playlist & log1 & H)].
  - constructor; [discriminate | constructor].
  - eapply fetch_pages_Forall in H; [| exact HP | constructor].
    eapply List.Forall_impl; [| exact H]. auto.
Qed.

Lemma skipped_not_before after item video_data :
  skipped (Some after) item = inr false ->
  video_summary item = inr video_data ->
  not_before after video_data.
Proof.
  intros Hs Hv. apply video_summary_publishedAt in Hv as (stamp & Hg & Hl).
  unfold skipped in Hs. rewrite Hg in Hs. simpl in Hs.
  destruct (strptime stamp publishedAt_format) as [e | published_at] eqn:Hp;
    [discriminate |].
  simpl in Hs. exists stamp, published_at. auto.
Qed.

(** *** The claims on the records *)

(** C4: every video record returned by [get_all_videos] and the record
    returned by [get_video_details] carry, under ["url"], the string
    ["https://www.youtube.com/watch?v="] followed by the record's ["id"];
    the text that the id contributes is the id itself when it is a
    string, so the URL is a function of the id alone. *)
Theorem watch_url_of_id :
  (forall fuel self channel_id username max_results published_after log l
          log',
      get_all_videos fuel self channel_id username max_results
        published_after log = (Return l, log') ->
      Forall (fun r => is_error r = false -> has_watch_url r) l)
  /\ (forall self video_id log r log',
         get_video_details self video_id log = (Return r, log') ->
         is_error r = false -> has_watch_url r)
  /\ (forall r id,
         has_watch_url r -> dict_lookup "id" r = Some (VStr id) ->
         dict_lookup "url" r
         = Some (VStr ("https://www.youtube.com/watch?v=" +:+ id))).
Proof.
  split; [| split].
  - intros. eapply get_all_videos_Forall; [| eassumption].
    intros item video_data _. apply video_summary_url.
  - intros self video_id log r log'. rewrite get_video_details_run.
    intros [= Hout _] Hne.
    destruct (youtube self log _) as [response | content |]; simpl in Hout;
      try discriminate.
    + destruct (video_of_response response) as [e | r0] eqn:Hv;
        simpl in Hout; [discriminate |].
      injection Hout as ->. unfold video_of_response in Hv.
      apply and_then_inr in Hv as (items & _ & Hv).
      destruct (truthy items); simpl in Hv.
      * apply and_then_inr in Hv as (video_data & _ & Hv).
        now apply video_detail_url in Hv.
      * injection Hv as <-. discriminate.
    + destruct (api_error content) eqn:Herr; simpl in Hout;
        [discriminate |].
      injection Hout as ->.
      apply api_error_shape in Herr as (message & _ & ->). discriminate.
  - intros r id (id' & Hid & Hurl) Hid'. rewrite Hid in Hid'.
    injection Hid' as ->. exact Hurl.
Qed.

(** C2: with [published_after] supplied, every video record of the
    returned list has a publish timestamp that parses and is not
    strictly before it.  The filter runs on the items of a fetched page:
    a page appends one record for each item that is not skipped, so at
    most as many records as it holds items, and the size asked of the
    next page is computed from the records appended, whatever the number
    of items fetched. *)
Theorem published_after_filter (after : datetime) :
  (forall fuel self channel_id username max_results log l log',
      get_all_videos fuel self channel_id username max_results (Some after)
        log = (Return l, log') ->
      Forall (fun r => is_error r = false -> not_before after r) l)
  /\ (forall items videos videos',
         for_items (Some after) items videos = inr videos' ->
         videos' = videos ++ page_records (Some after) items
         /\ len videos' <= len videos + len items)
  /\ (forall n videos playlist token,
         n <> 0 ->
         playlist_request (Some n) videos playlist token
         = PlaylistItemsList "snippet,contentDetails" playlist
             (Z.min 50 (n - len videos)) token).
Proof.
  split; [| split].
  - intros. eapply get_all_videos_Forall; [| eassumption].
    apply skipped_not_before.
  - intros items videos videos' H. apply for_items_records in H as ->.
    split; [reflexivity |]. unfold len. rewrite length_app.
    pose proof (page_records_length (Some after) items). lia.
  - intros n videos playlist token Hn.
    unfold playlist_request, page_size. simpl.
    destruct (Z.eqb_spec n 0); [contradiction | reflexivity].
Qed.

(** *** The error contract of the two lookups *)

Lemma zero_items_channel response :
  zero_items response ->
  channel_of_response response = inr [("error", VStr "Channel not found")].
Proof.
  intros (items & Hget & Hfalsy). unfold channel_of_response.
  rewrite Hget. simpl. now rewrite Hfalsy.
Qed.

Lemma zero_items_video response :
  zero_items response ->
  video_of_response response = inr [("error", VStr "Video not found")].
Proof.
  intros (items & Hget & Hfalsy). unfold video_of_response.
  rewrite Hget. simpl. now rewrite Hfalsy.
Qed.

Lemma channel_of_response_error_key response r :
  channel_of_response response = inr r ->
  is_error r = true <-> zero_items response.
Proof.
  intros H. split.
  - intros Herr. unfold channel_of_response in H.
    apply and_then_inr in H as (items & Hget & H).
    destruct (truthy items) eqn:Ht; simpl in H.
    + apply and_then_inr in H as (channel_data & _ & H).
      apply channel_summary_no_error in H. congruence.
    + exists items. auto.
  - intros Hz. apply zero_items_channel in Hz. rewrite Hz in H.
    now injection H as <-.
Qed.

Lemma video_of_response_error_key response r :
  video_of_response response = inr r ->
  is_error r = true <-> zero_items response.
Proof.
  intros H. split.
  - intros Herr. unfold video_of_response in H.
    apply and_then_inr in H as (items & Hget & H).
    destruct (truthy items) eqn:Ht; simpl in H.
    + apply and_then_inr in H as (video_data & _ & H).
      apply video_detail_no_error in H. congruence.
    + exists items. auto.
  - intros Hz. apply zero_items_video in Hz. rewrite Hz in H.
    now injection H as <-.
Qed.

Lemma lookup_outcome_error_key on_body reply r :
  (forall response r,
      on_body response = inr r ->
      is_error r = true <-> zero_items response) ->
  lookup_outcome on_body reply = Return r ->
  is_error r = true <-> failure_reply reply.
Proof.
  intros Hbody H. destruct reply as [response | content |]; simpl in *;
    [| | discriminate].
  - destruct (on_body response) eqn:E; simpl in H; [discriminate |].
    injection H as ->. now apply Hbody.
  - destruct (api_error content) eqn:E; simpl in H; [discriminate |].
    injection H as ->. apply api_error_shape in E as (message & _ & ->).
    easy.
Qed.

(** C5: once a lookup has sent its request, a response with zero items
    and a structured error of the remote API both make
    [get_channel_info] and [get_video_details] return a record whose
    only key is ["error"] and whose message is not empty; and a returned
    record holds the key ["error"] exactly when the reply was one of
    these two, so a record built from a found item never holds it. *)
Theorem lookup_error_contract (self : YouTubeAPIManager)
    (log : list request) :
  (forall channel_id username,
      truthy_str channel_id || truthy_str username = true ->
      let req := channels_request channel_id username in
      (forall response,
          youtube self log req = Body response -> zero_items response ->
          get_channel_info self channel_id username log
          = (Return [("error", VStr "Channel not found")], log ++ [req]))
      /\ (forall content message,
             youtube self log req = HttpFailure content ->
             structured_error content message ->
             get_channel_info self channel_id username log
             = (Return
                  [("error", VStr ("API Error: " +:+ format_value message))],
                log ++ [req]))
      /\ (forall r log',
             get_channel_info self channel_id username log
             = (Return r, log') ->
             is_error r = true <-> failure_reply (youtube self log req)))
  /\ (forall video_id,
         let req := videos_request video_id in
         (forall response,
             youtube self log req = Body response -> zero_items response ->
             get_video_details self video_id log
             = (Return [("error", VStr "Video not found")], log ++ [req]))
         /\ (forall content message,
                youtube self log req = HttpFailure content ->
                structured_error content message ->
                get_video_details self video_id log
                = (Return
                     [("error",
                        VStr ("API Error: " +:+ format_value message))],
                   log ++ [req]))
         /\ (forall r log',
                get_video_details self video_id log = (Return r, log') ->
                is_error r = true <-> failure_reply (youtube self log req)))
  /\ "Channel not found" <> ""
  /\ "Video not found" <> ""
  /\ (forall message, "API Error: " +:+ format_value message <> "").
Proof.
  repeat split; try discriminate.
  - intros response Hreply Hzero. rewrite get_channel_info_run by assumption.
    rewrite Hreply. simpl. now rewrite zero_items_channel.
  - intros content message Hreply Hs.
    rewrite get_channel_info_run by assumption.
    rewrite Hreply. simpl. now rewrite (api_error_structured _ _ Hs).
  - revert H0. rewrite get_channel_info_run by assumption.
    intros [= Hout _] Herr.
    eapply lookup_outcome_error_key in Hout;
      [now apply Hout | apply channel_of_response_error_key].
  - revert H0. rewrite get_channel_info_run by assumption.
    intros [= Hout _] Hf.
    eapply lookup_outcome_error_key in Hout;
      [now apply Hout | apply channel_of_response_error_key].
  - intros response Hreply Hzero. rewrite get_video_details_run.
    rewrite Hreply. simpl. now rewrite zero_items_video.
  - intros content message Hreply Hs. rewrite get_video_details_run.
    rewrite Hreply. simpl. now rewrite (api_error_structured _ _ Hs).
  - revert H. rewrite get_video_details_run. intros [= Hout _] Herr.
    eapply lookup_outcome_error_key in Hout;
      [now apply Hout | apply video_of_response_error_key].
  - revert H. rewrite get_video_details_run. intros [= Hout _] Hf.
    eapply lookup_outcome_error_key in Hout;
      [now apply Hout | apply video_of_response_error_key].
Qed.

(** C6: when [channel_id] and [username] are both absent (or empty),
    [get_channel_info] and [get_all_videos] raise the validation error
    and leave the log of executed requests as it was: on a client that
    has sent nothing, the request count is still zero. *)
Theorem missing_identifier_raises (self : YouTubeAPIManager)
    (channel_id username : option string) :
  truthy_str channel_id = false ->
  truthy_str username = false ->
  let error := ValueError "Either channel_id or username must be provided" in
  (forall log,
      get_channel_info self channel_id username log = (Raise error, log))
  /\ (forall fuel max_results published_after log,
         get_all_videos fuel self channel_id username max_results
           published_after log = (Raise error, log))
  /\ request_count (snd (get_channel_info self channel_id username [])) = 0%nat
  /\ (forall fuel max_results published_after,
         request_count
           (snd (get_all_videos fuel self channel_id username max_results
                   published_after [])) = 0%nat).
Proof.
  intros Hc Hu. unfold get_channel_info, get_all_videos.
  rewrite Hc, Hu. simpl. auto.
Qed.

(** C10: [get_video_details] validates nothing: for every [video_id],
    the empty string included, it executes its one request and raises no
    [ValueError]; how it ends is decided by the reply alone, a response
    with zero items giving the not-found record and a structured error
    of the remote API giving the API-error record. *)
Theorem get_video_details_unvalidated (self : YouTubeAPIManager)
    (video_id : string) (log : list request) :
  let req := VideosList "snippet,contentDetails,statistics" video_id in
  snd (get_video_details self video_id log) = log ++ [req]
  /\ (forall msg,
         fst (get_video_details self video_id log) <> Raise (ValueError msg))
  /\ fst (get_video_details self video_id log)
     = lookup_outcome video_of_response (youtube self log req)
  /\ (forall response,
         youtube self log req = Body response -> zero_items response ->
         fst (get_video_details self video_id log)
         = Return [("error", VStr "Video not found")])
  /\ (forall content message,
         youtube self log req = HttpFailure content ->
         structured_error content message ->
         fst (get_video_details self video_id log)
         = Return [("error", VStr ("API Error: " +:+ format_value message))]).
Proof.
  cbv zeta. rewrite get_video_details_run. simpl.
  change (videos_request video_id)
    with (VideosList "snippet,contentDetails,statistics" video_id).
  repeat split.
  - intros msg H.
    destruct (youtube self log _) as [response | content |]; simpl in H;
      [| | discriminate].
    + destruct (video_of_response response) eqn:E; simpl in H;
        [| discriminate].
      injection H as ->. now apply video_of_response_error in E.
    + destruct (api_error content) eqn:E; simpl in H; [| discriminate].
      injection H as ->. now apply api_error_error in E as [E | E].
  - intros response -> Hz. simpl. now rewrite zero_items_video.
  - intros content message -> Hs. simpl.
    now rewrite (api_error_structured _ _ Hs).
Qed.

(** *** Where the loop stops and what it has sent *)

Lemma fetch_pages_exit self max_results published_after playlist :
  forall fuel videos token log l log',
    fetch_pages fuel self max_results published_after playlist videos
      token log = (Return l, log') ->
    cap_reached max_results l = true \/ stopped_without_cursor self log'.
Proof.
  induction fuel as [| fuel IH]; intros videos token log l log'.
  - discriminate.
  - loop_step fuel IH; intros H; try discriminate.
    + injection H as <- <-. auto.
    + eapply IH, H.
    + injection H as <- <-. right.
      apply page_result_inr in Hpage as (items & its & _ & _ & _ & Hget).
      do 2 eexists. split; [reflexivity |].
      exists response, token'. auto.
Qed.

Lemma fetch_pages_requests self max_results published_after playlist :
  forall fuel videos token log out log',
    fetch_pages fuel self max_results published_after playlist videos
      token log = (out, log') ->
    exists reqs,
      log' = log ++ reqs
      /\ Forall
           (fun r => exists videos token,
                r = playlist_request max_results videos playlist token)
           reqs.
Proof.
  induction fuel as [| fuel IH]; intros videos token log out log'.
  - intros [= <- <-]. exists []. now rewrite app_nil_r.
  - loop_step fuel IH; intros H.
    + injection H as <- <-. exists []. now rewrite app_nil_r.
    + injection H as <- <-. eexists [_]. split; [reflexivity |].
      constructor; eauto.
    + apply IH in H as (reqs & -> & Hreqs).
      eexists (_ :: reqs). rewrite <- app_assoc. split; [reflexivity |].
      constructor; eauto.
    + injection H as <- <-. eexists [_]. split; [reflexivity |].
      constructor; eauto.
    + injection H as <- <-. eexists [_]. split; [reflexivity |].
      constructor; eauto.
    + injection H as <- <-. eexists [_]. split; [reflexivity |].
      constructor; eauto.
Qed.

Lemma fetch_pages_last self max_results published_after playlist :
  forall fuel videos token log out log',
    fetch_pages fuel self max_results published_after playlist videos
      token log = (out, log') ->
    log' = log
    \/ exists log0 req,
         log' = log0 ++ [req]
         /\ forall reply,
              youtube self log0 req = reply ->
              match reply with
              | HttpFailure content => out = Raise (HttpError content)
              | OtherFailure => out = Raise TransportError
              | Body _ => True
              end.
Proof.
  induction fuel as [| fuel IH]; intros videos token log out log'.
  - intros [= <- <-]. auto.
  - loop_step fuel IH; intros H.
    + injection H as <- <-. auto.
    + injection H as <- <-. right. do 2 eexists. split; [reflexivity |].
      intros reply Hr. rewrite Hreply in Hr. now subst reply.
    + apply IH in H as [-> | H]; [| auto].
      right. do 2 eexists. split; [reflexivity |].
      intros reply Hr. rewrite Hreply in Hr. now subst reply.
    + injection H as <- <-. right. do 2 eexists. split; [reflexivity |].
      intros reply Hr. rewrite Hreply in Hr. now subst reply.
    + injection H as <- <-. right. do 2 eexists. split; [reflexivity |].
      intros reply Hr. rewrite Hreply in Hr. now subst reply.
    + injection H as <- <-. right. do 2 eexists. split; [reflexivity |].
      intros reply Hr. rewrite Hreply in Hr. now subst reply.
Qed.

Lemma structured_error_unique content m1 m2 :
  structured_error content m1 -> structured_error content m2 -> m1 = m2.
Proof.
  intros (d1 & -> & H1) (d2 & [= <-] & H2). congruence.
Qed.

Lemma transport_failure_is_raised fuel self channel_id username max_results
    published_after log out log0 req :
  truthy_str channel_id || truthy_str username = true ->
  get_all_videos fuel self channel_id username max_results published_after
    log = (out, log0 ++ [req]) ->
  youtube self log0 req = OtherFailure ->
  out = Raise TransportError.
Proof.
  intros Hvalid. rewrite get_all_videos_run by exact Hvalid. cbv zeta.
  set (creq := resolution_request channel_id username).
  destruct (youtube self log creq) as [response | c |] eqn:Hreply; simpl.
  - destruct (channel_of_response response) as [e | channel_info]; simpl.
    { intros [= _ H]. apply app_inj_tail in H as [<- <-]. congruence. }
    destruct (dict_lookup "error" channel_info).
    { intros [= _ H]. apply app_inj_tail in H as [<- <-]. congruence. }
    destruct (if _ : bool then _ else _).
    { intros [= _ H]. apply app_inj_tail in H as [<- <-]. congruence. }
    destruct (dict_lookup "uploads_playlist" channel_info).
    2:{ intros [= _ H]. apply app_inj_tail in H as [<- <-]. congruence. }
    destruct (fetch_pages _ _ _ _ _ _ _ _) as [out1 log1] eqn:Hloop.
    apply fetch_pages_last in Hloop as [-> | (l0 & r0 & -> & Hlast)].
    + intros H Hr.
      assert (log ++ [creq] = log0 ++ [req]) as Heq
          by (destruct out1 as [| [] |]; congruence).
      apply app_inj_tail in Heq as [<- <-]. congruence.
    + intros H Hr.
      assert (l0 ++ [r0] = log0 ++ [req]) as Heq
          by (destruct out1 as [| [] |]; congruence).
      apply app_inj_tail in Heq as [<- <-].
      specialize (Hlast _ Hr). simpl in Hlast. subst out1. congruence.
  - destruct (api_error c) as [e | r] eqn:Herr; simpl.
    + intros [= _ H]. apply app_inj_tail in H as [<- <-]. congruence.
    + apply api_error_shape in Herr as (m & _ & ->). simpl.
      intros [= _ H]. apply app_inj_tail in H as [<- <-]. congruence.
  - intros H _. congruence.
Qed.

(** C7, as the code has it: after identifier validation, an error
    record returned by the channel-resolution sub-call becomes the whole
    result, wrapped in a single-element list; when the last request
    executed, be it the resolution or any later page, failed with a
    structured error of the remote API, the result is a single-element
    list holding only the error record, whatever had been collected;
    and when it failed with an exception that is not an [HttpError],
    that exception is raised. *)
Theorem failures_in_band (fuel : nat) (self : YouTubeAPIManager)
    (channel_id username : option string) (max_results : option Z)
    (published_after : option datetime) (log : list request) :
  truthy_str channel_id || truthy_str username = true ->
  (forall channel_info log1 err,
      resolve_channel self channel_id username log
      = (Return channel_info, log1) ->
      dict_lookup "error" channel_info = Some err ->
      get_all_videos fuel self channel_id username max_results
        published_after log = (Return [[("error", err)]], log1))
  /\ (forall out log0 req content message,
         get_all_videos fuel self channel_id username max_results
           published_after log = (out, log0 ++ [req]) ->
         youtube self log0 req = HttpFailure content ->
         structured_error content message ->
         out = Return
                 [[("error", VStr ("API Error: " +:+ format_value message))]])
  /\ (forall out log0 req,
         get_all_videos fuel self channel_id username max_results
           published_after log = (out, log0 ++ [req]) ->
         youtube self log0 req = OtherFailure ->
         out = Raise TransportError).
Proof.
  intros Hvalid. split; [| split];
    [| | intros out log0 req;
         now apply transport_failure_is_raised].
  - intros channel_info log1 err.
    rewrite resolve_channel_run by exact Hvalid. intros [= Hout <-] Herr.
    rewrite get_all_videos_run by exact Hvalid. cbv zeta.
    now rewrite Hout, Herr.
  - intros out log0 req content message.
    rewrite get_all_videos_run by exact Hvalid. cbv zeta.
    set (creq := resolution_request channel_id username).
    destruct (youtube self log creq) as [response | c |] eqn:Hreply; simpl.
    + destruct (channel_of_response response) as [e | channel_info]; simpl.
      { intros [= _ H]. apply app_inj_tail in H as [<- <-]. congruence. }
      destruct (dict_lookup "error" channel_info).
      { intros [= _ H]. apply app_inj_tail in H as [<- <-]. congruence. }
      destruct (if _ : bool then _ else _).
      { intros [= _ H]. apply app_inj_tail in H as [<- <-]. congruence. }
      destruct (dict_lookup "uploads_playlist" channel_info).
      2:{ intros [= _ H]. apply app_inj_tail in H as [<- <-]. congruence. }
      destruct (fetch_pages _ _ _ _ _ _ _ _) as [out1 log1] eqn:Hloop.
      apply fetch_pages_last in Hloop as [-> | (l0 & r0 & -> & Hlast)].
      * intros H Hr.
        assert (log ++ [creq] = log0 ++ [req]) as Heq
            by (destruct out1 as [| [] |]; congruence).
        apply app_inj_tail in Heq as [<- <-]. congruence.
      * intros H Hr Hs.
        assert (l0 ++ [r0] = log0 ++ [req]) as Heq
            by (destruct out1 as [| [] |]; congruence).
        apply app_inj_tail in Heq as [<- <-].
        specialize (Hlast _ Hr). simpl in Hlast. subst out1.
        rewrite (api_error_structured _ _ Hs) in H. simpl in H. congruence.
    + destruct (api_error c) as [e | r] eqn:Herr; simpl.
      * intros [= _ H]. apply app_inj_tail in H as [<- <-].
        intros Hr Hs. rewrite Hreply in Hr. injection Hr as <-.
        rewrite (api_error_structured _ _ Hs) in Herr. discriminate.
      * apply api_error_shape in Herr as (m & Hm & ->). simpl.
        intros [= <- H]. apply app_inj_tail in H as [<- <-].
        intros Hr Hs. rewrite Hreply in Hr. injection Hr as <-.
        now rewrite (structured_error_unique _ _ _ Hm Hs).
    + intros [= _ H]. apply app_inj_tail in H as [<- <-]. congruence.
Qed.

(** *** The length of the listing *)

Lemma len_app {A} (l1 l2 : list A) : len (l1 ++ l2) = len l1 + len l2.
Proof. unfold len. rewrite length_app. lia. Qed.

Lemma fetch_pages_at_most self n published_after playlist :
  0 < n -> page_bounded self ->
  forall fuel videos token log l log',
    len videos <= n ->
    fetch_pages fuel self (Some n) published_after playlist videos token log
    = (Return l, log') ->
    len l <= n.
Proof.
  intros Hn Hbound. induction fuel as [| fuel IH];
    intros videos token log l log' Hlen.
  - discriminate.
  - assert (cap_reached (Some n) videos = false ->
            forall response videos' token',
              youtube self log (playlist_request (Some n) videos playlist token)
              = Body response ->
              page_result published_after response videos
              = inr (videos', token') ->
              len videos' <= n) as Hpage_len.
    { intros Hcap response videos' token' Hreply Hpage.
      apply page_result_inr in Hpage as (items & its & Hi & Hit & -> & _).
      unfold playlist_request in Hreply.
      pose proof (Hbound _ _ _ _ _ _ _ _ Hreply Hi Hit) as Hits.
      pose proof (page_records_length published_after its) as Hrec.
      unfold cap_reached, truthy_int in Hcap.
      unfold page_size, truthy_int in Hits.
      destruct (Z.eqb_spec n 0); [lia |]. simpl in Hcap, Hits.
      rewrite len_app. unfold len in *. lia. }
    loop_step fuel IH; intros H; try discriminate.
    + now injection H as <- <-.
    + eapply IH; [| exact H]. eauto.
    + injection H as <- <-. eauto.
Qed.

(** *** The stub provider *)

Lemma stub_for_items c page : forall videos,
  for_items None (map (playlist_item c) page) videos
  = inr (videos ++ map (summary_of c) page).
Proof.
  induction page as [| u page IH]; intros videos; simpl.
  - now rewrite app_nil_r.
  - change (video_summary (playlist_item c u)) with
      (inr (B := dict) (A := exn) (summary_of c u)). simpl.
    rewrite IH. now rewrite <- app_assoc.
Qed.

Lemma firstn_skipn_more {A} (l : list A) : forall o k,
  firstn o l ++ firstn k (skipn o l) = firstn (o + k) l.
Proof.
  induction l as [| x l IH]; intros [| o] k; simpl;
    try reflexivity.
  - now destruct k.
  - now rewrite IH.
Qed.

Lemma length_unary n : String.length (unary n) = n.
Proof. induction n as [| n IH]; simpl; congruence. Qed.

Lemma truthy_token n : (0 < n)%nat -> truthy (token_of_offset n) = true.
Proof. destruct n; [lia | reflexivity]. Qed.

Lemma stub_page_result c m o videos :
  let k := Nat.min (Z.to_nat m) (ch_page_limit c) in
  page_result None (stub_page c m o) videos
  = inr (videos ++ map (summary_of c) (firstn k (skipn o (ch_videos c))),
         if (o + length (firstn k (skipn o (ch_videos c)))
             <? length (ch_videos c))%nat
         then token_of_offset
                (o + length (firstn k (skipn o (ch_videos c))))
         else VNone).
Proof.
  cbv zeta. unfold page_result, stub_page. simpl.
  rewrite stub_for_items. simpl.
  now destruct (_ <? _)%nat.
Qed.

(** The listing of the stub's channel, from any point of the collection:
    it ends, with the first [target] uploads in upload order. *)
Lemma stub_fetch_pages c max_results :
  (1 <= ch_page_limit c)%nat ->
  let uploads := ch_videos c in
  let t := target max_results (length uploads) in
  forall fuel o token log,
    offset_of_token token = Some o ->
    (o <= t)%nat ->
    (t - o + 1 <= fuel)%nat ->
    exists log',
      fetch_pages fuel (stub_manager c) max_results None
        (VStr (ch_uploads c)) (map (summary_of c) (firstn o uploads))
        token log
      = (Return (map (summary_of c) (firstn t uploads)), log').
Proof.
  intros Hlimit uploads t.
  assert (t <= length uploads)%nat as Ht.
  { subst t. unfold target. destruct max_results as [n |]; [| lia].
    destruct (truthy_int (Some n)); lia. }
  induction fuel as [| fuel IH]; intros o token log Htoken Ho Hfuel; [lia |].
  assert (len (map (summary_of c) (firstn o uploads)) = Z.of_nat o) as Hlen.
  { unfold len. rewrite length_map, length_firstn. lia. }
  rewrite fetch_pages_S. destruct (cap_reached _ _) eqn:Hcap.
  - (* the cap is reached: [o] is the target *)
    exists log. repeat f_equal.
    unfold cap_reached in Hcap. rewrite Hlen in Hcap.
    destruct max_results as [n |]; [| discriminate].
    subst t. unfold target in *.
    destruct (truthy_int (Some n)); [| discriminate]. simpl in Hcap. lia.
  - cbv zeta.
    set (m := page_size max_results (map (summary_of c) (firstn o uploads))).
    assert (1 <= m <= 50
            /\ (truthy_int max_results = true ->
                exists n, max_results = Some n /\ m <= n - Z.of_nat o))
      as (Hm & Hmn).
    { subst m. unfold page_size, cap_reached in *. rewrite Hlen in *.
      destruct max_results as [n |]; [| split; [lia | discriminate]].
      destruct (truthy_int (Some n)); simpl in Hcap;
        [| split; [lia | discriminate]].
      split; [lia |]. intros _. exists n. split; [reflexivity | lia]. }
    unfold playlist_request. fold m. unfold stub_manager at 1. simpl youtube.
    unfold stub. rewrite String.eqb_refl. simpl negb. cbv iota.
    replace ((m <? 0) || (50 <? m)) with false by lia.
    rewrite Htoken. rewrite stub_page_result. cbv zeta.
    fold uploads.
    set (k := Nat.min (Z.to_nat m) (ch_page_limit c)).
    assert (1 <= k <= Z.to_nat m)%nat as Hk by lia.
    rewrite <- map_app, firstn_skipn_more.
    rewrite length_firstn, length_skipn.
    destruct (Nat.ltb_spec (o + Nat.min k (length uploads - o))
                (length uploads)) as [Hlt | Hge].
    + (* uploads remain: another page *)
      replace (o + Nat.min k (length uploads - o))%nat with (o + k)%nat
        in * by lia.
      rewrite truthy_token by lia.
      assert (o + k <= t)%nat as Hnext.
      { subst t. unfold target.
        destruct (truthy_int max_results) eqn:Htr.
        - destruct (Hmn eq_refl) as (n & -> & Hn). lia.
        - destruct max_results; lia. }
      apply IH; [| exact Hnext | lia].
      simpl. now rewrite length_unary.
    + (* the collection is exhausted: no cursor *)
      simpl truthy. cbv iota.
      assert (t = length uploads) as Hall.
      { subst t. unfold target.
        destruct (truthy_int max_results) eqn:Htr.
        - destruct (Hmn eq_refl) as (n & -> & Hn). lia.
        - destruct max_results; lia. }
      rewrite Hall, firstn_all, firstn_all2 by lia. eauto.
Qed.

Lemma stub_page_bounded c : page_bounded (stub_manager c).
Proof.
  intros log part playlistId m token response items its. simpl. unfold stub.
  destruct (negb _); [discriminate |].
  destruct ((m <? 0) || (50 <? m)) eqn:Hm; [discriminate |].
  destruct (offset_of_token token) as [o |]; [| discriminate].
  intros [= <-]. unfold stub_page. simpl. intros [= <-]. simpl.
  intros [= <-]. unfold len. rewrite length_map, length_firstn. lia.
Qed.

Lemma identifies_resolution c channel_id username :
  identifies c channel_id username ->
  truthy_str channel_id || truthy_str username = true
  /\ forall log,
       stub c log (resolution_request channel_id username)
       = Body (VDict [("items", VList [channel_item c])]).
Proof.
  intros [[-> Hne] | (Hc & -> & Hne)].
  - apply String.eqb_neq in Hne. unfold resolution_request, channels_request.
    simpl. rewrite Hne. simpl. rewrite andb_false_r. simpl.
    now rewrite String.eqb_refl.
  - apply String.eqb_neq in Hne. unfold resolution_request, channels_request.
    simpl. rewrite Hc, Hne. simpl. now rewrite String.eqb_refl.
Qed.

Lemma stub_channel_of_response c :
  channel_of_response (VDict [("items", VList [channel_item c])])
  = inr (channel_record c).
Proof. reflexivity. Qed.

Lemma stub_get_all_videos c channel_id username max_results fuel log :
  identifies c channel_id username ->
  (1 <= ch_page_limit c)%nat ->
  (target max_results (length (ch_videos c)) + 1 <= fuel)%nat ->
  exists log',
    get_all_videos fuel (stub_manager c) channel_id username max_results
      None log
    = (Return
         (map (summary_of c)
            (firstn (target max_results (length (ch_videos c)))
               (ch_videos c))),
       log').
Proof.
  intros Hid Hlimit Hfuel.
  apply identifies_resolution in Hid as [Hvalid Hreply].
  rewrite get_all_videos_run by exact Hvalid. cbv zeta.
  change (youtube (stub_manager c)) with (stub c). rewrite Hreply.
  unfold lookup_outcome. rewrite stub_channel_of_response.
  unfold outcome_of.
  change (dict_lookup "error" (channel_record c)) with (@None value).
  change (getitem (VDict (channel_record c)) "uploads_playlist")
    with (inr (A := exn) (VStr (ch_uploads c))).
  change (getitem (VDict (channel_record c)) "id")
    with (inr (A := exn) (VStr (ch_id c))).
  cbv iota.
  destruct (stub_fetch_pages c max_results Hlimit fuel 0 VNone
              (log ++ [resolution_request channel_id username]))
    as [log' Hloop]; [reflexivity | lia | lia |].
  change (map (summary_of c) (firstn 0 (ch_videos c))) with (@nil dict)
    in Hloop.
  exists log'.
  destruct (truthy_str username && negb (truthy_str channel_id));
    now rewrite Hloop.
Qed.

Lemma get_all_videos_at_most fuel self channel_id username n published_after
    log l log' :
  0 < n -> page_bounded self ->
  get_all_videos fuel self channel_id username (Some n) published_after log
  = (Return l, log') ->
  len l <= n.
Proof.
  intros Hn Hbound H.
  apply get_all_videos_Return in H as [[err ->] | (playlist & log1 & H)].
  - unfold len. simpl. lia.
  - eapply fetch_pages_at_most in H; eauto. unfold len. simpl. lia.
Qed.

(** *** The claims on the length of the listing *)

(** C1: with [max_results = n] for a positive [n], on a provider whose
    pages never hold more items than were asked for, the returned list
    holds at most [n] records; and on a well-behaved provider whose
    channel holds at least [n] uploads, with no [published_after], the
    listing ends and returns exactly [n] records, those of the first [n]
    uploads in upload order. *)
Theorem max_results_cap (n : Z) :
  0 < n ->
  (forall fuel self channel_id username published_after log l log',
      page_bounded self ->
      get_all_videos fuel self channel_id username (Some n) published_after
        log = (Return l, log') ->
      len l <= n)
  /\ (forall c channel_id username fuel log,
         identifies c channel_id username ->
         (1 <= ch_page_limit c)%nat ->
         n <= len (ch_videos c) ->
         (Z.to_nat n + 1 <= fuel)%nat ->
         let l := map (summary_of c) (firstn (Z.to_nat n) (ch_videos c)) in
         len l = n
         /\ exists log',
              get_all_videos fuel (stub_manager c) channel_id username
                (Some n) None log = (Return l, log')).
Proof.
  intros Hn. split.
  - intros. eapply get_all_videos_at_most; eauto.
  - intros c channel_id username fuel log Hid Hlimit Hlen Hfuel. cbv zeta.
    unfold len in Hlen.
    assert (target (Some n) (length (ch_videos c)) = Z.to_nat n) as Ht.
    { unfold target, truthy_int. destruct (Z.eqb_spec n 0); simpl; lia. }
    split.
    + unfold len. rewrite length_map, length_firstn. lia.
    + rewrite <- Ht. apply stub_get_all_videos; auto. lia.
Qed.

(** C3: on a well-behaved provider whose channel holds exactly [k]
    uploads, with [max_results > k] and no [published_after], the loop
    ends within [k + 1] iterations; it stops on a reply without
    continuation cursor, and the list returned holds exactly the [k]
    records of the uploads. *)
Theorem pagination_terminates (c : channel)
    (channel_id username : option string) (n : Z) (fuel : nat)
    (log : list request) :
  identifies c channel_id username ->
  (1 <= ch_page_limit c)%nat ->
  len (ch_videos c) < n ->
  (length (ch_videos c) + 1 <= fuel)%nat ->
  let l := map (summary_of c) (ch_videos c) in
  len l = len (ch_videos c)
  /\ exists log',
       get_all_videos fuel (stub_manager c) channel_id username (Some n)
         None log = (Return l, log')
       /\ stopped_without_cursor (stub_manager c) log'.
Proof.
  intros Hid Hlimit Hlen Hfuel. cbv zeta. unfold len in Hlen.
  assert (target (Some n) (length (ch_videos c)) = length (ch_videos c))
    as Ht.
  { unfold target, truthy_int. destruct (Z.eqb_spec n 0); simpl; lia. }
  split; [unfold len; now rewrite length_map |].
  destruct (stub_get_all_videos c channel_id username (Some n) fuel log)
    as [log' Hrun]; [assumption | assumption | lia |].
  rewrite Ht, firstn_all in Hrun. exists log'. split; [exact Hrun |].
  apply get_all_videos_Return in Hrun
    as [[err Herr] | (playlist & log1 & Hloop)].
  - (* the returned list is not an error record *)
    destruct (ch_videos c) as [| u [| ? ?]]; discriminate.
  - apply fetch_pages_exit in Hloop as [Hcap | Hstop]; [| exact Hstop].
    unfold cap_reached, truthy_int, len in Hcap. rewrite length_map in Hcap.
    destruct (Z.eqb_spec n 0); simpl in Hcap; lia.
Qed.

(** *** The listing without a cap *)

Lemma falsy_cap max_results videos :
  truthy_int max_results = false ->
  cap_reached max_results videos = false /\ page_size max_results videos = 50.
Proof.
  intros H. unfold cap_reached, page_size.
  destruct max_results as [n |]; [rewrite H |]; auto.
Qed.

Lemma asks_fifty_resolution channel_id username :
  asks_fifty (resolution_request channel_id username).
Proof.
  unfold resolution_request, channels_request.
  destruct (_ && _); destruct (truthy_str _); exact I.
Qed.

Lemma get_all_videos_requests fuel self channel_id username max_results
    published_after log out log' :
  get_all_videos fuel self channel_id username max_results published_after
    log = (out, log') ->
  exists reqs,
    log' = log ++ reqs
    /\ Forall
         (fun r => r = resolution_request channel_id username
                   \/ exists videos playlist token,
                        r = playlist_request max_results videos playlist
                              token)
         reqs.
Proof.
  destruct (truthy_str channel_id || truthy_str username) eqn:Hvalid.
  - rewrite get_all_videos_run by exact Hvalid. cbv zeta.
    set (creq := resolution_request channel_id username).
    assert (exists reqs,
               log ++ [creq] = log ++ reqs
               /\ Forall
                    (fun r => r = creq
                              \/ exists videos playlist token,
                                   r = playlist_request max_results videos
                                         playlist token)
                    reqs) as Hone
        by (exists [creq]; split; [reflexivity | constructor; auto]).
    destruct (lookup_outcome _ _) as [channel_info | e |];
      [| intros [= <- <-]; exact Hone | intros [= <- <-]; exact Hone].
    destruct (dict_lookup "error" channel_info);
      [intros [= <- <-]; exact Hone |].
    destruct (if _ : bool then _ else _);
      [intros [= <- <-]; exact Hone |].
    destruct (getitem _ _) as [e | playlist];
      [intros [= <- <-]; exact Hone |].
    destruct (fetch_pages _ _ _ _ _ _ _ _) as [out1 log1] eqn:Hloop.
    apply fetch_pages_requests in Hloop as (reqs & -> & Hreqs).
    intros H.
    assert (log' = (log ++ [creq]) ++ reqs) as ->
        by (destruct out1 as [| [] |]; congruence).
    exists (creq :: reqs). rewrite <- app_assoc. split; [reflexivity |].
    constructor; [auto |].
    eapply List.Forall_impl; [| exact Hreqs].
    intros r (videos & token & ->). eauto.
  - intros H. apply unvalidated_run in H as [_ ->]; [| exact Hvalid].
    exists []. now rewrite app_nil_r.
Qed.

Lemma endless_fetch_pages c self max_results published_after playlist :
  youtube self = endless c ->
  truthy_int max_results = false ->
  forall fuel videos token log,
    fst (fetch_pages fuel self max_results published_after playlist videos
           token log) = OutOfFuel.
Proof.
  intros Hself Hfalsy. induction fuel as [| fuel IH];
    intros videos token log; [reflexivity |].
  rewrite fetch_pages_S.
  rewrite (proj1 (falsy_cap max_results videos Hfalsy)). cbv zeta.
  rewrite Hself. unfold playlist_request, endless.
  change (page_result published_after
            (VDict [("items", VList []); ("nextPageToken", VStr "again")])
            videos)
    with (inr (A := exn) (videos, VStr "again")).
  simpl truthy. cbv iota. apply IH.
Qed.

(** C8: with [max_results] falsy ([None] or [0]) the cap is never
    reached and the page size is 50: every listing request that a call
    executes asks for 50 items; a list of videos is returned only after
    a reply without continuation cursor; on a well-behaved provider the
    whole collection is returned, whatever its size; and on a provider
    whose every page carries a cursor the loop does not end. *)
Theorem falsy_max_results_unbounded (max_results : option Z) :
  truthy_int max_results = false ->
  (forall videos,
      cap_reached max_results videos = false
      /\ page_size max_results videos = 50)
  /\ (forall fuel self channel_id username published_after log out log',
         get_all_videos fuel self channel_id username max_results
           published_after log = (out, log') ->
         exists reqs, log' = log ++ reqs /\ Forall asks_fifty reqs)
  /\ (forall fuel self channel_id username published_after log l log',
         get_all_videos fuel self channel_id username max_results
           published_after log = (Return l, log') ->
         (exists err, l = [[("error", err)]])
         \/ stopped_without_cursor self log')
  /\ (forall c channel_id username fuel log,
         identifies c channel_id username ->
         (1 <= ch_page_limit c)%nat ->
         (length (ch_videos c) + 1 <= fuel)%nat ->
         fst (get_all_videos fuel (stub_manager c) channel_id username
                max_results None log)
         = Return (map (summary_of c) (ch_videos c)))
  /\ (forall c channel_id username published_after fuel log,
         identifies c channel_id username ->
         fst (get_all_videos fuel {| api_key := "key"; youtube := endless c |}
                channel_id username max_results published_after log)
         = OutOfFuel).
Proof.
  intros Hfalsy. split; [| split; [| split; [| split]]].
  - intros videos. now apply falsy_cap.
  - intros fuel self channel_id username published_after log out log' H.
    apply get_all_videos_requests in H as (reqs & -> & Hreqs).
    exists reqs. split; [reflexivity |].
    eapply List.Forall_impl; [| exact Hreqs].
    intros r [-> | (videos & playlist & token & ->)].
    + apply asks_fifty_resolution.
    + simpl. now apply falsy_cap.
  - intros fuel self channel_id username published_after log l log' H.
    apply get_all_videos_Return in H as [Herr | (playlist & log1 & H)];
      [auto |].
    apply fetch_pages_exit in H as [Hcap | Hstop]; [| auto].
    now rewrite (proj1 (falsy_cap max_results l Hfalsy)) in Hcap.
  - intros c channel_id username fuel log Hid Hlimit Hfuel.
    assert (target max_results (length (ch_videos c)) = length (ch_videos c))
      as Ht
        by (unfold target; destruct max_results; [rewrite Hfalsy |];
            reflexivity).
    destruct (stub_get_all_videos c channel_id username max_results fuel log)
      as [log' Hrun]; [assumption | assumption | lia |].
    rewrite Ht, firstn_all in Hrun. now rewrite Hrun.
  - intros c channel_id username published_after fuel log Hid.
    apply identifies_resolution in Hid as [Hvalid Hreply].
    rewrite get_all_videos_run by exact Hvalid. cbv zeta.
    change (youtube {| api_key := "key"; youtube := endless c |} log
              (resolution_request channel_id username))
      with (endless c log (resolution_request channel_id username)).
    assert (endless c log (resolution_request channel_id username)
            = stub c log (resolution_request channel_id username)) as ->.
    { unfold resolution_request, channels_request.
      destruct (_ && _); destruct (truthy_str _); reflexivity. }
    rewrite Hreply. unfold lookup_outcome.
    rewrite stub_channel_of_response. unfold outcome_of.
    change (dict_lookup "error" (channel_record c)) with (@None value).
    change (getitem (VDict (channel_record c)) "uploads_playlist")
      with (inr (A := exn) (VStr (ch_uploads c))).
    change (getitem (VDict (channel_record c)) "id")
      with (inr (A := exn) (VStr (ch_id c))).
    cbv iota.
    pose proof (endless_fetch_pages c
                  {| api_key := "key"; youtube := endless c |} max_results
                  published_after (VStr (ch_uploads c)) eq_refl Hfalsy fuel
                  [] VNone (log ++ [resolution_request channel_id username]))
      as Hloop.
    destruct (fetch_pages _ _ _ _ _ _ _ _) as [out1 log1].
    simpl in Hloop. subst out1.
    now destruct (truthy_str username && negb (truthy_str channel_id)).
Qed.

(** ** Further properties of the metadata client *)

(** *** What the methods raise *)

Lemma handler_not_http content content' :
  outcome_of (e <~ api_error content ;; inr [e]) <> Raise (HttpError content').
Proof.
  destruct (api_error content) as [e | r] eqn:E; simpl; [| discriminate].
  apply api_error_error in E as [-> | E]; [discriminate |].
  intros [= ->]. discriminate.
Qed.

Lemma get_all_videos_not_http fuel self channel_id username max_results
    published_after log out log' content :
  get_all_videos fuel self channel_id username max_results published_after
    log = (out, log') ->
  out <> Raise (HttpError content).
Proof.
  intros H Hout. subst out. revert H.
  destruct (truthy_str channel_id || truthy_str username) eqn:Hvalid.
  - rewrite get_all_videos_run by exact Hvalid. cbv zeta.
    destruct (lookup_outcome _ _) as [channel_info | e |] eqn:Hout.
    + destruct (dict_lookup "error" channel_info); [discriminate |].
      destruct (if _ : bool then _ else _) as [e | v] eqn:Hid.
      { intros [= -> _]. destruct (_ && _); [| discriminate].
        now apply getitem_error in Hid. }
      destruct (getitem _ "uploads_playlist") as [e | playlist] eqn:Hpl.
      { intros [= -> _]. now apply getitem_error in Hpl. }
      destruct (fetch_pages _ _ _ _ _ _ _ _) as [[l | e |] log1];
        try discriminate.
      destruct e; try discriminate.
      intros [= H _]. now apply handler_not_http in H.
    + intros [= -> _].
      now apply lookup_outcome_not_http in Hout;
        [| apply channel_of_response_error].
    + discriminate.
  - intros H. apply unvalidated_run in H as [H _]; [| exact Hvalid].
    discriminate.
Qed.

(** X3: no method lets an [HttpError] escape, whatever the remote
    service answers; and what a validated [get_channel_info] raises is
    decided by the reply: the exception of the transport, when it is
    not an [HttpError]; a lookup error, on a response or an error body
    that lacks a key; and on an [HttpError] whose body cannot be
    decoded, the decode error of the handler, which is a
    [ValueError]. *)
Theorem http_error_never_escapes (self : YouTubeAPIManager)
    (log : list request) (content : option value) :
  (forall channel_id username,
      fst (get_channel_info self channel_id username log)
      <> Raise (HttpError content))
  /\ (forall video_id,
         fst (get_video_details self video_id log)
         <> Raise (HttpError content))
  /\ (forall fuel channel_id username max_results published_after,
         fst (get_all_videos fuel self channel_id username max_results
                published_after log)
         <> Raise (HttpError content))
  /\ (forall channel_id username e,
         truthy_str channel_id || truthy_str username = true ->
         fst (get_channel_info self channel_id username log) = Raise e ->
         match youtube self log (channels_request channel_id username) with
         | Body _ => is_lookup_error e = true
         | HttpFailure (Some _) => is_lookup_error e = true
         | HttpFailure None => e = DecodeError /\ is_ValueError e = true
         | OtherFailure => e = TransportError
         end).
Proof.
  repeat split.
  - intros channel_id username.
    destruct (truthy_str channel_id || truthy_str username) eqn:Hvalid.
    + rewrite get_channel_info_run by exact Hvalid. simpl.
      apply lookup_outcome_not_http, channel_of_response_error.
    + unfold get_channel_info.
      destruct (truthy_str channel_id), (truthy_str username);
        discriminate.
  - intros video_id. rewrite get_video_details_run. simpl.
    apply lookup_outcome_not_http, video_of_response_error.
  - intros fuel channel_id username max_results published_after.
    destruct (get_all_videos _ _ _ _ _ _ _) as [out log'] eqn:H.
    simpl. eapply get_all_videos_not_http, H.
  - intros channel_id username e Hvalid.
    rewrite get_channel_info_run by exact Hvalid. simpl.
    destruct (youtube self log _) as [response | [details |] |]; simpl.
    + destruct (channel_of_response response) eqn:E; simpl;
        [| discriminate].
      intros [= <-]. eapply channel_of_response_error, E.
    + unfold api_error. simpl.
      destruct (getitem2 details "error" "message") eqn:E; simpl;
        [| discriminate].
      intros [= <-]. eapply getitem2_error, E.
    + intros [= <-]. split; reflexivity.
    + intros [= <-]. reflexivity.
Qed.

(** *** Which identifier is used *)

(** X2: when [channel_id] is given and not empty, [username] plays no
    part in [get_channel_info] nor in [get_all_videos]; and an empty
    [channel_id] counts as absent. *)
Theorem channel_id_preferred (self : YouTubeAPIManager)
    (channel_id : option string) (log : list request) :
  truthy_str channel_id = true ->
  (forall username,
      get_channel_info self channel_id username log
      = get_channel_info self channel_id None log)
  /\ (forall fuel username max_results published_after,
         get_all_videos fuel self channel_id username max_results
           published_after log
         = get_all_videos fuel self channel_id None max_results
             published_after log)
  /\ (forall username,
         get_channel_info self (Some "") username log
         = get_channel_info self None username log)
  /\ (forall fuel username max_results published_after,
         get_all_videos fuel self (Some "") username max_results
           published_after log
         = get_all_videos fuel self None username max_results
             published_after log).
Proof.
  intros Hc. split; [| split; [| split; reflexivity]].
  - intros username. unfold get_channel_info, channels_request.
    now rewrite Hc.
  - intros fuel username max_results published_after.
    unfold get_all_videos. rewrite Hc. simpl.
    now rewrite !andb_false_r.
Qed.

(** *** The requests of a listing *)

Lemma channel_summary_keys channel_data r :
  channel_summary channel_data = inr r ->
  exists id uploads,
    dict_lookup "id" r = Some id
    /\ dict_lookup "uploads_playlist" r = Some uploads.
Proof.
  intros H. unfold channel_summary in H. and_then_inv H.
  injection H as <-. do 2 eexists. split; reflexivity.
Qed.

Lemma channel_of_response_keys response channel_info :
  channel_of_response response = inr channel_info ->
  dict_lookup "error" channel_info = None ->
  exists id uploads,
    dict_lookup "id" channel_info = Some id
    /\ dict_lookup "uploads_playlist" channel_info = Some uploads.
Proof.
  unfold channel_of_response. intros H Herr.
  apply and_then_inr in H as (items & _ & H).
  destruct (truthy items); simpl in H.
  - apply and_then_inr in H as (channel_data & _ & H).
    now apply channel_summary_keys in H.
  - injection H as <-. discriminate.
Qed.

(** What a validated listing does after the resolution request: it stops
    there, or it runs the loop on the uploads playlist of the channel
    found. *)
Lemma get_all_videos_listing fuel self channel_id username max_results
    published_after log out log' :
  truthy_str channel_id || truthy_str username = true ->
  get_all_videos fuel self channel_id username max_results published_after
    log = (out, log') ->
  (log' = log ++ [resolution_request channel_id username]
   /\ out <> OutOfFuel
   /\ forall l, out = Return l -> exists err, l = [[("error", err)]])
  \/ exists response channel_info playlist out1,
       youtube self log (resolution_request channel_id username)
       = Body response
       /\ channel_of_response response = inr channel_info
       /\ dict_lookup "error" channel_info = None
       /\ dict_lookup "uploads_playlist" channel_info = Some playlist
       /\ fetch_pages fuel self max_results published_after playlist []
            VNone (log ++ [resolution_request channel_id username])
          = (out1, log')
       /\ (out = out1
           \/ exists content,
                out1 = Raise (HttpError content)
                /\ out = outcome_of (e <~ api_error content ;; inr [e])).
Proof.
  intros Hvalid. rewrite get_all_videos_run by exact Hvalid. cbv zeta.
  set (creq := resolution_request channel_id username).
  destruct (youtube self log creq) as [response | content |] eqn:Hreply;
    simpl.
  - destruct (channel_of_response response) as [e | channel_info] eqn:Hch;
      simpl.
    { intros [= <- <-]. left. repeat split; discriminate. }
    destruct (dict_lookup "error" channel_info) as [err |] eqn:Herr.
    { intros [= <- <-]. left. repeat split; [discriminate |].
      intros l [= <-]. eauto. }
    destruct (channel_of_response_keys _ _ Hch Herr)
      as (id & uploads & Hid & Hup).
    unfold getitem. rewrite Hid, Hup.
    assert ((if truthy_str username && negb (truthy_str channel_id)
             then inr (A := exn) id else inr VNone)
            = inr (if truthy_str username && negb (truthy_str channel_id)
                   then id else VNone)) as -> by now destruct (_ && _).
    destruct (fetch_pages _ _ _ _ _ _ _ _) as [out1 log1] eqn:Hloop.
    intros H. right. exists response, channel_info, uploads, out1.
    repeat split; try assumption.
    + destruct out1 as [| [] |]; congruence.
    + destruct out1 as [l | e |]; [left | | left]; try congruence.
      destruct e; try (left; congruence).
      right. exists content. split; congruence.
  - destruct (api_error content) as [e | r] eqn:Herr; simpl.
    + intros [= <- <-]. left. repeat split; discriminate.
    + apply api_error_shape in Herr as (m & _ & ->). simpl.
      intros [= <- <-]. left. repeat split; [discriminate |].
      intros l [= <-]. eauto.
  - intros [= <- <-]. left. repeat split; discriminate.
Qed.

Lemma page_size_bounds max_results videos :
  cap_reached max_results videos = false ->
  1 <= page_size max_results videos <= 50.
Proof.
  unfold cap_reached, page_size, truthy_int.
  destruct max_results as [n |]; [| lia].
  destruct (Z.eqb_spec n 0); simpl; lia.
Qed.

Lemma fetch_pages_well_sized self max_results published_after playlist :
  forall fuel videos token log out log',
    fetch_pages fuel self max_results published_after playlist videos
      token log = (out, log') ->
    exists reqs, log' = log ++ reqs /\ Forall (well_sized playlist) reqs.
Proof.
  induction fuel as [| fuel IH]; intros videos token log out log'.
  - intros [= <- <-]. exists []. now rewrite app_nil_r.
  - assert (cap_reached max_results videos = false ->
            well_sized playlist
              (playlist_request max_results videos playlist token))
      as Hsize.
    { intros Hcap. do 2 eexists. split; [reflexivity |].
      now apply page_size_bounds. }
    loop_step fuel IH; intros H;
      try (injection H as <- <-; eexists [_];
           split; [reflexivity | constructor; auto]).
    + injection H as <- <-. exists []. now rewrite app_nil_r.
    + apply IH in H as (reqs & -> & Hreqs).
      eexists (_ :: reqs). rewrite <- app_assoc. split; [reflexivity |].
      constructor; auto.
Qed.

(** X5: after its resolution request, a validated listing executes only
    listing requests; each is for the uploads playlist named by the
    reply to the resolution, selects ["snippet,contentDetails"], and
    asks for at least 1 and at most 50 items, whatever [max_results] is
    and whatever the provider answers. *)
Theorem listing_requests_well_sized (fuel : nat) (self : YouTubeAPIManager)
    (channel_id username : option string) (max_results : option Z)
    (published_after : option datetime) (log log' : list request)
    (out : outcome (list dict)) :
  truthy_str channel_id || truthy_str username = true ->
  get_all_videos fuel self channel_id username max_results published_after
    log = (out, log') ->
  exists reqs,
    log' = log ++ resolution_request channel_id username :: reqs
    /\ (reqs = []
        \/ exists response channel_info playlist,
             youtube self log (resolution_request channel_id username)
             = Body response
             /\ channel_of_response response = inr channel_info
             /\ dict_lookup "uploads_playlist" channel_info = Some playlist
             /\ Forall (well_sized playlist) reqs).
Proof.
  intros Hvalid H.
  apply get_all_videos_listing in H
    as [(-> & _) | (response & channel_info & playlist & out1 & Hreply
                    & Hch & _ & Hup & Hloop & _)];
    [| | exact Hvalid].
  - exists []. auto.
  - apply fetch_pages_well_sized in Hloop as (reqs & -> & Hreqs).
    exists reqs. rewrite <- app_assoc. split; [reflexivity |].
    right. exists response, channel_info, playlist. auto.
Qed.

Lemma fetch_pages_chain self max_results published_after playlist :
  forall fuel videos token log out log',
    fetch_pages fuel self max_results published_after playlist videos
      token log = (out, log') ->
    exists reqs, log' = log ++ reqs /\ cursor_chain self log token reqs.
Proof.
  induction fuel as [| fuel IH]; intros videos token log out log'.
  - intros [= <- <-]. exists []. now rewrite app_nil_r.
  - loop_step fuel IH; intros H;
      try (injection H as <- <-; eexists [_];
           split; [reflexivity | simpl; split; [unfold playlist_request |]];
           eauto).
    + injection H as <- <-. exists []. now rewrite app_nil_r.
    + apply IH in H as (reqs & -> & Hreqs).
      eexists (_ :: reqs). rewrite <- app_assoc. split; [reflexivity |].
      simpl. split; [unfold playlist_request; eauto |].
      right. apply page_result_inr in Hpage as (items & its & _ & _ & _ & Hc).
      exists response, token'. auto.
Qed.

(** X6: the listing requests of a call form a chain of cursors: the
    first carries no page token, and each later one carries the
    [nextPageToken], not empty, of the reply to the request before it. *)
Theorem cursors_are_chained (fuel : nat) (self : YouTubeAPIManager)
    (channel_id username : option string) (max_results : option Z)
    (published_after : option datetime) (log log' : list request)
    (out : outcome (list dict)) :
  truthy_str channel_id || truthy_str username = true ->
  get_all_videos fuel self channel_id username max_results published_after
    log = (out, log') ->
  exists reqs,
    log' = log ++ resolution_request channel_id username :: reqs
    /\ cursor_chain self (log ++ [resolution_request channel_id username])
         VNone reqs.
Proof.
  intros Hvalid H.
  apply get_all_videos_listing in H
    as [(-> & _) | (response & channel_info & playlist & out1 & _ & _ & _
                    & _ & Hloop & _)];
    [| | exact Hvalid].
  - exists []. split; [reflexivity | exact I].
  - apply fetch_pages_chain in Hloop as (reqs & -> & Hreqs).
    exists reqs. rewrite <- app_assoc. auto.
Qed.

Lemma fetch_pages_collected self max_results published_after playlist :
  forall fuel videos token log l log',
    fetch_pages fuel self max_results published_after playlist videos
      token log = (Return l, log') ->
    exists reqs,
      log' = log ++ reqs
      /\ l = videos ++ collected published_after self log reqs.
Proof.
  induction fuel as [| fuel IH]; intros videos token log l log'.
  - discriminate.
  - loop_step fuel IH; intros H; try discriminate.
    + injection H as <- <-. exists []. now rewrite !app_nil_r.
    + apply IH in H as (reqs & -> & ->).
      apply page_result_inr in Hpage as (items & its & Hi & Hit & -> & _).
      eexists (_ :: reqs). rewrite <- !app_assoc. split; [reflexivity |].
      simpl. rewrite Hreply, Hi. simpl. now rewrite Hit.
    + injection H as <- <-.
      apply page_result_inr in Hpage as (items & its & Hi & Hit & -> & _).
      eexists [_]. split; [reflexivity |].
      simpl. rewrite Hreply, Hi. simpl. rewrite Hit. now rewrite app_nil_r.
Qed.

(** X7: a list of videos returned by [get_all_videos] is the
    concatenation, in the order of the requests, of what each page
    contributes: one record for each item that is not skipped, in the
    order of the page. *)
Theorem listing_concatenates_pages (fuel : nat) (self : YouTubeAPIManager)
    (channel_id username : option string) (max_results : option Z)
    (published_after : option datetime) (log log' : list request)
    (l : list dict) :
  get_all_videos fuel self channel_id username max_results published_after
    log = (Return l, log') ->
  (exists err, l = [[("error", err)]])
  \/ exists reqs,
       log' = log ++ resolution_request channel_id username :: reqs
       /\ l = collected published_after self
                (log ++ [resolution_request channel_id username]) reqs.
Proof.
  intros H.
  destruct (truthy_str channel_id || truthy_str username) eqn:Hvalid.
  - apply get_all_videos_listing in H
      as [(_ & _ & Herr) | (response & channel_info & playlist & out1 & _
                            & _ & _ & _ & Hloop & Hout)];
      [eauto | | exact Hvalid].
    destruct Hout as [<- | (content & -> & Hout)].
    + apply fetch_pages_collected in Hloop as (reqs & -> & ->).
      right. exists reqs. rewrite <- app_assoc. auto.
    + left. destruct (api_error content) as [e | r] eqn:Herr;
        simpl in Hout; [discriminate |].
      apply api_error_shape in Herr as (m & _ & ->).
      injection Hout as ->. eauto.
  - apply unvalidated_run in H as [H _]; [discriminate | exact Hvalid].
Qed.

(** X4: with a negative [max_results] the cap is reached before the
    first page: a validated call executes the resolution request and
    nothing else, and returns the empty list when the channel is
    found. *)
Theorem negative_max_results_lists_nothing (fuel : nat)
    (self : YouTubeAPIManager) (channel_id username : option string)
    (n : Z) (published_after : option datetime) (log : list request) :
  n < 0 ->
  truthy_str channel_id || truthy_str username = true ->
  exists out,
    get_all_videos (S fuel) self channel_id username (Some n)
      published_after log
    = (out, log ++ [resolution_request channel_id username])
    /\ (forall l,
           out = Return l -> l = [] \/ exists err, l = [[("error", err)]])
    /\ (forall response channel_info,
           youtube self log (resolution_request channel_id username)
           = Body response ->
           channel_of_response response = inr channel_info ->
           dict_lookup "error" channel_info = None ->
           out = Return []).
Proof.
  intros Hn Hvalid.
  destruct (get_all_videos _ _ _ _ _ _ _) as [out log'] eqn:H.
  exists out.
  assert (forall playlist log1,
             fetch_pages (S fuel) self (Some n) published_after playlist []
               VNone log1 = (Return [], log1)) as Hloop.
  { intros playlist log1. rewrite fetch_pages_S.
    replace (cap_reached (Some n) []) with true; [reflexivity |].
    symmetry. unfold cap_reached, truthy_int, len. simpl.
    apply andb_true_intro. split.
    - apply negb_true_iff, Z.eqb_neq. lia.
    - apply Z.geb_le. lia. }
  assert (forall response channel_info,
             youtube self log (resolution_request channel_id username)
             = Body response ->
             channel_of_response response = inr channel_info ->
             dict_lookup "error" channel_info = None ->
             out = Return []) as Hfound.
  { intros response channel_info Hreply Hch Herr. revert H.
    rewrite get_all_videos_run by exact Hvalid. cbv zeta.
    rewrite Hreply. unfold lookup_outcome. rewrite Hch. unfold outcome_of.
    rewrite Herr.
    destruct (channel_of_response_keys _ _ Hch Herr)
      as (id & uploads & Hid & Hup).
    unfold getitem. rewrite Hid, Hup.
    destruct (_ && _); rewrite Hloop; now intros [= <- _]. }
  apply get_all_videos_listing in H
    as [(-> & _ & Herr) | (response & channel_info & playlist & out1 & Hreply
                           & Hch & Herr & Hup & Hrun & Hout)];
    [| | exact Hvalid].
  - split; [reflexivity |]. split; [intros l Hl; right; eauto | exact Hfound].
  - rewrite Hloop in Hrun. injection Hrun as <- <-.
    destruct Hout as [-> | (content & [=] & _)].
    split; [reflexivity |]. split; [intros l [= <-]; auto | exact Hfound].
Qed.

(** *** Which items a page needs to be well formed *)

(** X8: the loop over the items of a page succeeds exactly when the
    filter can be evaluated on every item and every item that is not
    skipped has the fields of a record; a skipped item is read no
    further than its publish timestamp.  The result is then the list
    extended by the records of the items that are not skipped. *)
Theorem for_items_succeeds_iff (published_after : option datetime)
    (items : list value) (videos : list dict) :
  (exists videos', for_items published_after items videos = inr videos')
  <-> Forall
        (fun item =>
           skipped published_after item = inr true
           \/ (skipped published_after item = inr false
               /\ exists video_data, video_summary item = inr video_data))
        items.
Proof.
  revert videos. induction items as [| item rest IH]; intros videos; simpl.
  - split; [constructor | eauto].
  - split.
    + intros [videos' H].
      destruct (skipped published_after item) as [e | [|]] eqn:Hs;
        simpl in H; [discriminate | |].
      * constructor; [auto | apply (IH videos); eauto].
      * destruct (video_summary item) as [e | video_data] eqn:Hv;
          simpl in H; [discriminate |].
        constructor; [right; eauto | eapply IH; eauto].
    + intros H. inversion H as [| ? ? [Hs | (Hs & video_data & Hv)] Hrest];
        subst; rewrite Hs; simpl.
      * now apply IH.
      * rewrite Hv. simpl. now apply IH.
Qed.

Lemma getitem2_inr v a b x :
  getitem2 v a b = inr x
  <-> exists d, getitem v a = inr (VDict d) /\ dict_lookup b d = Some x.
Proof.
  unfold getitem2, and_then. split.
  - destruct (getitem v a) as [e | [| | | | | d]]; simpl; try discriminate.
    destruct (dict_lookup b d) eqn:E; intros [= <-]. eauto.
  - intros (d & -> & H). simpl. now rewrite H.
Qed.

Lemma getitem_get_inr v a b default x :
  getitem_get v a b default = inr x
  <-> exists d, getitem v a = inr (VDict d)
                /\ x = match dict_lookup b d with
                       | Some y => y
                       | None => default
                       end.
Proof.
  unfold getitem_get, and_then. split.
  - destruct (getitem v a) as [e | [| | | | | d]]; simpl; try discriminate.
    destruct (dict_lookup b d) eqn:E; intros [= <-]; exists d;
      rewrite E; auto.
  - intros (d & -> & ->). simpl. now destruct (dict_lookup b d).
Qed.

(** X9: [get_video_details] builds a record from a found video exactly
    when the video has an id, a [snippet] with the six listed fields, a
    duration and a [statistics] object; it does not need [tags],
    [categoryId] nor any of the counts, which default to the empty
    list, the empty string and 0. *)
Theorem video_detail_required_keys (video_data : value) :
  (video_required video_data <-> exists r, video_detail video_data = inr r)
  /\ (forall r snippet statistics,
         video_detail video_data = inr r ->
         getitem video_data "snippet" = inr (VDict snippet) ->
         getitem video_data "statistics" = inr (VDict statistics) ->
         dict_lookup "tags" r
         = Some (default (VList []) (dict_lookup "tags" snippet))
         /\ dict_lookup "categoryId" r
            = Some (default (VStr "") (dict_lookup "categoryId" snippet))
         /\ dict_lookup "viewCount" r
            = Some (default (VInt 0) (dict_lookup "viewCount" statistics))
         /\ dict_lookup "likeCount" r
            = Some (default (VInt 0) (dict_lookup "likeCount" statistics))
         /\ dict_lookup "commentCount" r
            = Some (default (VInt 0)
                      (dict_lookup "commentCount" statistics))).
Proof.
  split; [split |].
  - intros (id & snippet & title & description & publishedAt & thumbnails
            & channelId & channelTitle & duration & statistics & Hid & Hsn
            & Ht & Hd & Hp & Hth & Hci & Hct & Hdu & Hst).
    unfold video_detail.
    rewrite Hid, Hdu.
    rewrite (proj2 (getitem2_inr _ _ _ title)) by eauto.
    rewrite (proj2 (getitem2_inr _ _ _ description)) by eauto.
    rewrite (proj2 (getitem2_inr _ _ _ publishedAt)) by eauto.
    rewrite (proj2 (getitem2_inr _ _ _ thumbnails)) by eauto.
    rewrite (proj2 (getitem2_inr _ _ _ channelId)) by eauto.
    rewrite (proj2 (getitem2_inr _ _ _ channelTitle)) by eauto.
    unfold getitem_get. rewrite Hsn, Hst. simpl.
    destruct (dict_lookup "tags" snippet),
      (dict_lookup "categoryId" snippet),
      (dict_lookup "viewCount" statistics),
      (dict_lookup "likeCount" statistics),
      (dict_lookup "commentCount" statistics); simpl; eauto.
  - intros [r H]. unfold video_detail in H.
    apply and_then_inr in H as (id & Hid & H).
    apply and_then_inr in H as (title & Ht & H).
    apply and_then_inr in H as (description & Hd & H).
    apply and_then_inr in H as (publishedAt & Hp & H).
    apply and_then_inr in H as (thumbnails & Hth & H).
    apply and_then_inr in H as (channelId & Hci & H).
    apply and_then_inr in H as (channelTitle & Hct & H).
    apply and_then_inr in H as (tags & _ & H).
    apply and_then_inr in H as (categoryId & _ & H).
    apply and_then_inr in H as (duration & Hdu & H).
    apply and_then_inr in H as (viewCount & Hv & H).
    apply getitem2_inr in Ht as (snippet & Hsn & Ht).
    apply getitem2_inr in Hd as (s1 & Hs1 & Hd).
    apply getitem2_inr in Hp as (s2 & Hs2 & Hp).
    apply getitem2_inr in Hth as (s3 & Hs3 & Hth).
    apply getitem2_inr in Hci as (s4 & Hs4 & Hci).
    apply getitem2_inr in Hct as (s5 & Hs5 & Hct).
    apply getitem_get_inr in Hv as (statistics & Hst & _).
    rewrite Hsn in Hs1, Hs2, Hs3, Hs4, Hs5.
    injection Hs1 as <-. injection Hs2 as <-. injection Hs3 as <-.
    injection Hs4 as <-. injection Hs5 as <-.
    exists id, snippet, title, description, publishedAt, thumbnails,
      channelId, channelTitle, duration, statistics.
    repeat split; assumption.
  - intros r snippet statistics H Hsn Hst. unfold video_detail in H.
    and_then_inv H. injection H as <-.
    repeat match goal with
           | E : getitem_get _ _ _ _ = inr _ |- _ =>
               apply getitem_get_inr in E as (? & ? & ->)
           end.
    repeat match goal with
           | E : getitem video_data "snippet" = inr (VDict ?d) |- _ =>
               rewrite Hsn in E; injection E as <-
           | E : getitem video_data "statistics" = inr (VDict ?d) |- _ =>
               rewrite Hst in E; injection E as <-
           end.
    repeat split; simpl;
      match goal with
      | |- context [dict_lookup ?k ?d] => now destruct (dict_lookup k d)
      end.
Qed.

(** *** The cost of a short listing *)

(** X10: on a well-behaved provider that serves pages of the size asked
    for, a listing of at most 50 videos from a channel that has them
    costs exactly two requests, the resolution and one page, and needs
    no more than two turns of the loop. *)
Theorem one_page_suffices (c : channel) (channel_id username : option string)
    (n : Z) (fuel : nat) (log : list request) :
  identifies c channel_id username ->
  0 < n <= 50 ->
  (Z.to_nat n <= ch_page_limit c)%nat ->
  n <= len (ch_videos c) ->
  (2 <= fuel)%nat ->
  get_all_videos fuel (stub_manager c) channel_id username (Some n) None log
  = (Return (map (summary_of c) (firstn (Z.to_nat n) (ch_videos c))),
     log ++ [resolution_request channel_id username;
             PlaylistItemsList "snippet,contentDetails"
               (VStr (ch_uploads c)) n VNone]).
Proof.
  intros Hid Hn Hlimit Hlen Hfuel. unfold len in Hlen.
  apply identifies_resolution in Hid as [Hvalid Hreply].
  rewrite get_all_videos_run by exact Hvalid. cbv zeta.
  change (youtube (stub_manager c)) with (stub c). rewrite Hreply.
  unfold lookup_outcome. rewrite stub_channel_of_response.
  unfold outcome_of.
  change (dict_lookup "error" (channel_record c)) with (@None value).
  change (getitem (VDict (channel_record c)) "uploads_playlist")
    with (inr (A := exn) (VStr (ch_uploads c))).
  change (getitem (VDict (channel_record c)) "id")
    with (inr (A := exn) (VStr (ch_id c))).
  cbv iota.
  set (log1 := log ++ [resolution_request channel_id username]).
  assert (fetch_pages fuel (stub_manager c) (Some n) None
            (VStr (ch_uploads c)) [] VNone log1
          = (Return (map (summary_of c) (firstn (Z.to_nat n) (ch_videos c))),
             log1 ++ [PlaylistItemsList "snippet,contentDetails"
                        (VStr (ch_uploads c)) n VNone])) as Hloop.
  { destruct fuel as [| [| fuel]]; try lia.
    assert (truthy_int (Some n) = true) as Htr
        by (unfold truthy_int; destruct (Z.eqb_spec n 0); [lia | easy]).
    rewrite fetch_pages_S.
    assert (cap_reached (Some n) [] = false) as ->
        by (unfold cap_reached, len; rewrite Htr; simpl;
            rewrite Z.geb_leb; apply Z.leb_gt; lia).
    cbv zeta. unfold playlist_request, page_size. rewrite Htr.
    replace (Z.min 50 (n - len [])) with n by (unfold len; simpl; lia).
    change (youtube (stub_manager c)) with (stub c). unfold stub, is_str.
    rewrite String.eqb_refl. simpl negb. cbv iota.
    replace ((n <? 0) || (50 <? n)) with false by lia.
    simpl offset_of_token. cbv iota.
    rewrite stub_page_result. cbv zeta.
    replace (Nat.min (Z.to_nat n) (ch_page_limit c)) with (Z.to_nat n)
      by lia.
    change (skipn 0 (ch_videos c)) with (ch_videos c).
    change ([] ++ ?l) with l. rewrite length_firstn.
    replace (0 + Nat.min (Z.to_nat n) (length (ch_videos c)))%nat
      with (Z.to_nat n) by lia.
    destruct (Nat.ltb_spec (Z.to_nat n) (length (ch_videos c))).
    - rewrite truthy_token by lia. rewrite fetch_pages_S.
      assert (cap_reached (Some n)
                (map (summary_of c) (firstn (Z.to_nat n) (ch_videos c)))
              = true) as ->; [| reflexivity].
      unfold cap_reached, len. rewrite Htr, length_map, length_firstn.
      simpl. apply Z.geb_le. lia.
    - reflexivity. }
  unfold log1 in *. rewrite <- app_assoc in Hloop. simpl in Hloop.
  destruct (truthy_str username && negb (truthy_str channel_id));
    now rewrite Hloop.
Qed.

(** *** When the loop ends *)

Lemma fetch_pages_ends self n published_after playlist :
  0 < n ->
  makes_progress self (Some n) published_after ->
  forall fuel videos token log,
    (Z.to_nat (n - len videos) + 1 <= fuel)%nat ->
    fst (fetch_pages fuel self (Some n) published_after playlist videos
           token log) <> OutOfFuel.
Proof.
  intros Hn Hprogress. induction fuel as [| fuel IH];
    intros videos token log Hfuel; [lia |].
  rewrite fetch_pages_S. destruct (cap_reached _ _) eqn:Hcap;
    [discriminate |]. cbv zeta.
  destruct (youtube _ _ _) as [response | content |] eqn:Hreply;
    try discriminate.
  destruct (page_result _ response _) as [e | [videos' token']] eqn:Hpage;
    [discriminate |].
  destruct (truthy token') eqn:Htoken; [| discriminate].
  apply IH.
  pose proof (Hprogress _ _ _ _ _ _ _ Hcap Hreply Hpage Htoken) as Hmore.
  unfold cap_reached, truthy_int in Hcap.
  destruct (Z.eqb_spec n 0); [lia |]. simpl in Hcap.
  rewrite Z.geb_leb in Hcap. apply Z.leb_gt in Hcap. lia.
Qed.

(** X17: with a positive [max_results = n], on any provider of which
    every page that carries a cursor adds at least one record, the loop
    of [get_all_videos] ends within [n + 1] turns, by a return or by an
    exception. *)
Theorem listing_ends_on_progress (fuel : nat) (self : YouTubeAPIManager)
    (channel_id username : option string) (n : Z)
    (published_after : option datetime) (log : list request) :
  0 < n ->
  makes_progress self (Some n) published_after ->
  (Z.to_nat n + 1 <= fuel)%nat ->
  fst (get_all_videos fuel self channel_id username (Some n)
         published_after log) <> OutOfFuel.
Proof.
  intros Hn Hprogress Hfuel.
  destruct (get_all_videos _ _ _ _ _ _ _) as [out log'] eqn:H. simpl.
  destruct (truthy_str channel_id || truthy_str username) eqn:Hvalid.
  - apply get_all_videos_listing in H
      as [(_ & Hout & _) | (response & channel_info & playlist & out1 & _
                            & _ & _ & _ & Hloop & Hout)];
      [exact Hout | | exact Hvalid].
    pose proof (fetch_pages_ends self n published_after playlist Hn Hprogress
                  fuel [] VNone
                  (log ++ [resolution_request channel_id username]))
      as Hends.
    rewrite Hloop in Hends. simpl in Hends.
    destruct Hout as [-> | (content & -> & ->)].
    + apply Hends. unfold len. simpl. lia.
    + now destruct (api_error content).
  - apply unvalidated_run in H as [-> _]; [discriminate | exact Hvalid].
Qed.

Lemma stub_makes_progress c max_results :
  (1 <= ch_page_limit c)%nat ->
  makes_progress (stub_manager c) max_results None.
Proof.
  intros Hlimit log playlist videos token response videos' token' Hcap.
  apply page_size_bounds in Hcap.
  unfold playlist_request. simpl. unfold stub.
  destruct (negb _); [discriminate |].
  destruct ((_ <? 0) || _); [discriminate |].
  destruct (offset_of_token token) as [o |]; [| discriminate].
  intros [= <-]. rewrite stub_page_result. cbv zeta.
  intros [= <- <-].
  destruct (Nat.ltb_spec
              (o + length (firstn (Nat.min
                                     (Z.to_nat (page_size max_results videos))
                                     (ch_page_limit c))
                             (skipn o (ch_videos c))))
              (length (ch_videos c))) as [Hlt | Hge];
    [| discriminate].
  intros _. rewrite len_app. unfold len.
  rewrite length_map. rewrite length_firstn, length_skipn in *. lia.
Qed.

(** *** What the script can print *)

Lemma video_summary_title_url item r :
  video_summary item = inr r ->
  exists title url,
    dict_lookup "title" r = Some title /\ dict_lookup "url" r = Some url.
Proof.
  intros H. unfold video_summary in H. and_then_inv H.
  injection H as <-. do 2 eexists. split; reflexivity.
Qed.

Lemma print_videos_lines (videos : list dict) :
  Forall
    (fun r => exists title url,
         dict_lookup "title" r = Some title /\ dict_lookup "url" r = Some url)
    videos ->
  forall log printed,
    exists lines,
      print_videos videos (log, printed) = (Return tt, (log, printed ++ lines))
      /\ length lines = length videos.
Proof.
  induction 1 as [| r rest (title & url & Ht & Hu) _ IH]; intros log printed.
  - exists []. simpl. unfold eval. simpl. now rewrite app_nil_r.
  - simpl. unfold script_bind at 1. unfold eval at 1. unfold getitem.
    rewrite Ht. simpl outcome_of. cbv iota.
    unfold script_bind at 1. unfold eval at 1. rewrite Hu.
    simpl outcome_of. cbv iota.
    unfold script_bind at 1. unfold print at 1. simpl fst. simpl snd.
    destruct (IH log
                (printed
                 ++ ["- " +:+ format_value title +:+ " (" +:+ format_value url
                     +:+ ")"]))
      as (lines & -> & Hlen).
    eexists (_ :: lines). rewrite <- app_assoc. split; [reflexivity |].
    simpl. now rewrite Hlen.
Qed.

(** X18: whatever the provider, the printing loop of the script runs
    through a list of videos returned by [get_all_videos] and prints one
    line for each record; on the error list that a failed listing
    returns in-band it raises [KeyError] for ['title'] and prints
    nothing. *)
Theorem listing_is_printable (fuel : nat) (self : YouTubeAPIManager)
    (channel_id username : option string) (max_results : option Z)
    (published_after : option datetime) (log log' : list request)
    (l : list dict) (log0 : list request) (printed : list string) :
  get_all_videos fuel self channel_id username max_results published_after
    log = (Return l, log') ->
  (exists err,
      l = [[("error", err)]]
      /\ print_videos l (log0, printed)
         = (Raise (KeyError (VStr "title")), (log0, printed)))
  \/ exists lines,
       print_videos l (log0, printed)
       = (Return tt, (log0, printed ++ lines))
       /\ length lines = length l.
Proof.
  intros H.
  pose proof (get_all_videos_Return _ _ _ _ _ _ _ _ _ H)
    as [[err ->] | (playlist & log1 & Hloop)].
  - left. exists err. split; reflexivity.
  - right. apply print_videos_lines.
    eapply fetch_pages_Forall; [| constructor | exact Hloop].
    intros item video_data _. apply video_summary_title_url.
Qed.

End Properties.

(** ** Properties of the constructor and of the script *)

Section ScriptProperties.

Context {lib : PyLib}.

(** X1: the constructor raises the configuration error exactly when no
    key is passed and [YOUTUBE_API_KEY] is not set, and then builds
    nothing; otherwise it builds the [youtube] [v3] service with the key
    passed, be it the empty string, and with the variable's value only
    when no key is passed. *)
Theorem init_key_resolution
    (build : string -> string -> string -> exn + transport)
    (environ : gmap string string) :
  (forall key,
      init build environ (Some key)
      = match build "youtube" "v3" key with
        | inl e => inl e
        | inr service => inr {| api_key := key; youtube := service |}
        end)
  /\ (forall key,
         environ !! "YOUTUBE_API_KEY" = Some key ->
         init build environ None = init build environ (Some key))
  /\ (environ !! "YOUTUBE_API_KEY" = None ->
      init build environ None
      = inl (ValueError missing_key_message))
  /\ (forall explicit manager,
         init build environ explicit = inr manager ->
         build "youtube" "v3" (api_key manager) = inr (youtube manager)
         /\ (explicit = Some (api_key manager)
             \/ (explicit = None
                 /\ environ !! "YOUTUBE_API_KEY" = Some (api_key manager)))).
Proof.
  split; [| split; [| split]].
  - intros key. unfold init. simpl. now destruct (build _ _ key).
  - intros key H. unfold init, api_key_variable. now rewrite H.
  - intros H. unfold init, api_key_variable. now rewrite H.
  - intros explicit manager. unfold init, api_key_variable.
    destruct explicit as [key |]; simpl.
    + destruct (build _ _ key) eqn:Hb; simpl; [discriminate |].
      intros [= <-]. simpl. auto.
    + destruct (environ !! "YOUTUBE_API_KEY") as [key |] eqn:He; simpl;
        [| discriminate].
      destruct (build _ _ key) eqn:Hb; simpl; [discriminate |].
      intros [= <-]. simpl. auto.
Qed.

(** X11: the script stops before printing anything when it cannot read
    the channel: without a key it raises the configuration error and
    sends nothing; and when the channel is not found, or the remote API
    answers with a structured error, the error record has no ['title']
    and the script raises [KeyError] after its one request. *)
Theorem script_fails_early
    (build : string -> string -> string -> exn + transport)
    (environ : gmap string string) (fuel : nat) (log : list request)
    (printed : list string) :
  (environ !! "YOUTUBE_API_KEY" = None ->
   main build environ fuel (log, printed)
   = (Raise (ValueError missing_key_message), (log, printed)))
  /\ (forall key service,
         environ !! "YOUTUBE_API_KEY" = Some key ->
         build "youtube" "v3" key = inr service ->
         let req :=
           ChannelsList "snippet,contentDetails,statistics"
             (Some "UC_x5XG1OV2P6uZZ5FSM9Ttw") None in
         (exists response,
             service log req = Body response /\ zero_items response)
         \/ (exists content message,
                service log req = HttpFailure content
                /\ structured_error content message) ->
         main build environ fuel (log, printed)
         = (Raise (KeyError (VStr "title")), (log ++ [req], printed))).
Proof.
  split.
  - intros He. unfold main, script_bind, eval, init, api_key_variable.
    now rewrite He.
  - intros key service He Hb req Hreply.
    unfold main, init, api_key_variable. rewrite He. simpl. rewrite Hb.
    unfold script_bind at 1. unfold eval at 1. simpl outcome_of. cbv iota.
    unfold script_bind at 1. unfold call at 1. simpl fst. simpl snd.
    rewrite get_channel_info_run by reflexivity.
    change (channels_request (Some google_developers) None) with req.
    change (youtube {| api_key := key; youtube := service |}) with service.
    destruct Hreply as [(response & -> & Hz) | (content & m & -> & Hs)].
    + simpl. rewrite (zero_items_channel _ Hz). reflexivity.
    + simpl. rewrite (api_error_structured _ _ Hs). reflexivity.
Qed.

Lemma fetch_pages_ext self self' max_results published_after playlist :
  youtube self = youtube self' ->
  forall fuel videos token log,
    fetch_pages fuel self max_results published_after playlist videos
      token log
    = fetch_pages fuel self' max_results published_after playlist videos
        token log.
Proof.
  intros Hext. induction fuel as [| fuel IH]; intros videos token log;
    [reflexivity |].
  rewrite !fetch_pages_S, Hext.
  destruct (cap_reached max_results videos); [reflexivity |]. cbv zeta.
  destruct (youtube self' log _); try reflexivity.
  destruct (page_result _ _ _) as [e | [videos' token']]; [reflexivity |].
  destruct (truthy token'); [apply IH | reflexivity].
Qed.

Lemma get_all_videos_ext self self' fuel channel_id username max_results
    published_after log :
  youtube self = youtube self' ->
  get_all_videos fuel self channel_id username max_results published_after
    log
  = get_all_videos fuel self' channel_id username max_results
      published_after log.
Proof.
  intros Hext.
  destruct (truthy_str channel_id || truthy_str username) eqn:Hvalid.
  - rewrite !get_all_videos_run by exact Hvalid. cbv zeta. rewrite Hext.
    destruct (lookup_outcome _ _); try reflexivity.
    destruct (dict_lookup "error" a); [reflexivity |].
    destruct (if _ : bool then _ else _); [reflexivity |].
    destruct (getitem _ _); [reflexivity |].
    now rewrite (fetch_pages_ext self self' _ _ _ Hext).
  - unfold get_all_videos.
    destruct (truthy_str channel_id), (truthy_str username);
      try discriminate; reflexivity.
Qed.

Lemma print_videos_stub c us : forall log printed,
  print_videos (map (summary_of c) us) (log, printed)
  = (Return tt, (log, printed ++ map video_line us)).
Proof.
  induction us as [| u us IH]; intros log printed; simpl.
  - unfold eval. simpl. now rewrite app_nil_r.
  - unfold script_bind at 1. unfold eval at 1. simpl outcome_of. cbv iota.
    unfold script_bind at 1. unfold eval at 1. simpl outcome_of. cbv iota.
    unfold script_bind at 1. unfold print at 1. simpl fst. simpl snd.
    rewrite IH. rewrite <- app_assoc. reflexivity.
Qed.

Lemma firstn_min_length {A} (n : nat) (l : list A) :
  firstn (Nat.min n (length l)) l = firstn n l.
Proof.
  destruct (Nat.le_ge_cases n (length l)).
  - now rewrite Nat.min_l.
  - rewrite Nat.min_r by assumption.
    now rewrite firstn_all, firstn_all2.
Qed.

(** X12: against a well-behaved provider whose channel is the one the
    script asks for, with a key in the environment, the script ends
    normally: it prints the three lines of the channel, the heading, one
    line for each of the first ten uploads in upload order, and, when
    there is an upload, the four lines of the details of the first one;
    on a channel without uploads it asks for no details. *)
Theorem script_on_stub
    (build : string -> string -> string -> exn + transport)
    (environ : gmap string string) (key : string) (c : channel)
    (fuel : nat) (log : list request) (printed : list string) :
  environ !! "YOUTUBE_API_KEY" = Some key ->
  build "youtube" "v3" key = inr (stub c) ->
  ch_id c = "UC_x5XG1OV2P6uZZ5FSM9Ttw" ->
  (1 <= ch_page_limit c)%nat ->
  (11 <= fuel)%nat ->
  exists log',
    main build environ fuel (log, printed)
    = (Return tt, (log', printed ++ script_output c))
    /\ (ch_videos c = [] ->
        forall r,
          In r log' -> In r log \/ forall part id, r <> VideosList part id).
Proof.
  intros He Hb Hid Hlimit Hfuel.
  set (manager := {| api_key := key; youtube := stub c |}).
  assert (identifies c (Some google_developers) None) as Hident.
  { left. rewrite Hid. split; [reflexivity | discriminate]. }
  assert (get_channel_info manager (Some google_developers) None log
          = (Return (channel_record c),
             log ++ [channels_request (Some google_developers) None]))
    as Hinfo.
  { rewrite get_channel_info_run by reflexivity. f_equal.
    change (youtube manager) with (stub c).
    destruct (identifies_resolution _ _ _ Hident) as [_ Hreply].
    change (channels_request (Some google_developers) None)
      with (resolution_request (Some google_developers) None).
    rewrite Hreply. reflexivity. }
  set (log1 := log ++ [channels_request (Some google_developers) None]).
  destruct (stub_get_all_videos c (Some google_developers) None (Some 10)
              fuel log1 Hident Hlimit) as [log2 Hlist].
  { unfold target. change (truthy_int (Some 10)) with true. cbv iota. lia. }
  rewrite (get_all_videos_ext (stub_manager c) manager) in Hlist
    by reflexivity.
  assert (target (Some 10) (length (ch_videos c))
          = Nat.min 10 (length (ch_videos c))) as Ht
      by (unfold target; change (truthy_int (Some 10)) with true;
          cbv iota; lia).
  rewrite Ht, firstn_min_length in Hlist.
  apply get_all_videos_requests in Hlist as Hreqs.
  destruct Hreqs as (reqs & Hlog2 & Hreqs).
  unfold main, init, api_key_variable. rewrite He. simpl and_then.
  rewrite Hb. simpl and_then.
  unfold script_bind at 1. unfold eval at 1. simpl outcome_of. cbv iota.
  unfold script_bind at 1. unfold call at 1. simpl fst. simpl snd.
  fold manager. rewrite Hinfo.
  do 3 (unfold script_bind at 1; unfold eval at 1; simpl outcome_of;
        cbv iota;
        unfold script_bind at 1; unfold print at 1; simpl fst; simpl snd).
  unfold script_bind at 1. unfold call at 1. simpl fst. simpl snd.
  fold log1. rewrite Hlist.
  unfold script_bind at 1. unfold print at 1. simpl fst. simpl snd.
  unfold script_bind at 1. rewrite print_videos_stub.
  unfold script_output.
  destruct (ch_videos c) as [| u us] eqn:Hvideos.
  - exists log2. simpl. unfold eval. simpl. split.
    + rewrite <- !app_assoc. reflexivity.
    + intros _ r Hr. rewrite Hlog2 in Hr. unfold log1 in Hr.
      rewrite <- app_assoc in Hr.
      apply in_app_or in Hr as [Hr | Hr]; [auto |]. right.
      intros part id ->. simpl in Hr. destruct Hr as [Hr | Hr];
        [discriminate |].
      rewrite List.Forall_forall in Hreqs. apply Hreqs in Hr.
      destruct Hr as [Hr | (? & ? & ? & Hr)]; [| discriminate].
      unfold resolution_request, channels_request in Hr. simpl in Hr.
      discriminate.
  - exists (log2 ++ [videos_request (up_id u)]). split; [| discriminate].
    change (firstn 10 (u :: us)) with (u :: firstn 9 us).
    change (map (summary_of c) (u :: firstn 9 us))
      with (summary_of c u :: map (summary_of c) (firstn 9 us)).
    unfold print_details.
    unfold script_bind at 1. unfold eval at 1. simpl outcome_of. cbv iota.
    unfold script_bind at 1. unfold call at 1. simpl fst. simpl snd.
    change (format_value (VStr (up_id u))) with (up_id u).
    rewrite get_video_details_run.
    change (youtube manager) with (stub c). unfold videos_request at 1.
    unfold stub at 1. rewrite Hvideos. simpl find.
    rewrite String.eqb_refl.
    change (lookup_outcome video_of_response
              (Body (VDict [("items", VList [video_item c u])])))
      with (outcome_of (video_of_response
                          (VDict [("items", VList [video_item c u])]))).
    change (video_of_response (VDict [("items", VList [video_item c u])]))
      with (video_detail (video_item c u)).
    unfold video_detail, video_item. simpl outcome_of. cbv iota.
    do 3 (unfold script_bind at 1; unfold eval at 1; simpl outcome_of;
          cbv iota;
          unfold script_bind at 1; unfold print at 1; simpl fst; simpl snd).
    unfold script_bind at 1. unfold eval at 1. simpl outcome_of. cbv iota.
    unfold print. simpl fst. simpl snd.
    rewrite <- !app_assoc. reflexivity.
Qed.

End ScriptProperties.

(** ** Properties of the transcript helper *)

Section TranscriptProperties.

Import Transcriptor.

Lemma rsplit_no_slash s :
  no_slash s = true -> rsplit (s +:+ ".txt") = None.
Proof.
  induction s as [| c s IH]; simpl; [reflexivity |].
  intros H. apply andb_prop in H as [Hc Hs]. rewrite (IH Hs).
  now destruct (Ascii.eqb c "/").
Qed.

Lemma rsplit_last_slash d s :
  rsplit s = None -> rsplit (d +:+ String "/" s) = Some (d, s).
Proof.
  intros H. induction d as [| c d IH]; simpl.
  - now rewrite H.
  - now rewrite IH.
Qed.

Lemma parent_transcript_path video_id :
  no_slash video_id = true ->
  parent (transcript_path video_id) = transcriptions_dir.
Proof.
  intros H. unfold parent.
  change (transcript_path video_id)
    with (transcriptions_dir +:+ String "/" (video_id +:+ ".txt")).
  now rewrite (rsplit_last_slash _ _ (rsplit_no_slash _ H)).
Qed.

Lemma transcript_path_not_dir video_id :
  transcript_path video_id <> transcriptions_dir.
Proof.
  intros H. unfold transcript_path, transcriptions_dir in H.
  discriminate H.
Qed.

(** How a call that meets no obstacle leaves the file system. *)
Lemma transcript_run p video_id languages fs fetched_transcript bytes :
  fetch p video_id languages = inr fetched_transcript ->
  text_encode p (caption_of fetched_transcript) = inr bytes ->
  no_slash video_id = true ->
  open_error p (transcript_path video_id) = None ->
  fs !! transcriptions_dir = None \/ fs !! transcriptions_dir = Some Dir ->
  fs !! transcript_path video_id <> Some Dir ->
  transcript p video_id languages fs
  = (Return tt,
     <[transcript_path video_id := File bytes]>
       (<[transcriptions_dir := Dir]> fs)).
Proof.
  intros Hfetch Henc Hname Hopen Hdir Hfile.
  pose proof (transcript_path_not_dir video_id) as Hne.
  pose proof (parent_transcript_path video_id Hname) as Hparent.
  unfold transcript. rewrite Hfetch. unfold isdir at 1, mkdir.
  destruct Hdir as [Hdir | Hdir]; rewrite Hdir; simpl.
  - unfold open_w, isdir. rewrite Hopen, Hparent.
    rewrite lookup_insert_ne by congruence.
    rewrite lookup_insert_eq. simpl.
    destruct (fs !! transcript_path video_id) as [[| old] |] eqn:Hold;
      [congruence | |]; rewrite Henc; now rewrite insert_insert_eq.
  - unfold open_w, isdir. rewrite Hopen, Hparent, Hdir. simpl.
    rewrite (insert_id fs transcriptions_dir Dir Hdir).
    destruct (fs !! transcript_path video_id) as [[| old] |] eqn:Hold;
      [congruence | |]; rewrite Henc; now rewrite insert_insert_eq.
Qed.

(** How a call ends when [open] refuses the path. *)
Lemma transcript_refused p video_id languages fs fetched_transcript e :
  fetch p video_id languages = inr fetched_transcript ->
  open_error p (transcript_path video_id) = Some e ->
  fs !! transcriptions_dir = None \/ fs !! transcriptions_dir = Some Dir ->
  transcript p video_id languages fs
  = (Raise e, <[transcriptions_dir := Dir]> fs).
Proof.
  intros Hfetch Hopen Hdir.
  unfold transcript. rewrite Hfetch. unfold isdir at 1, mkdir.
  destruct Hdir as [Hdir | Hdir]; rewrite Hdir; simpl;
    unfold open_w; rewrite Hopen; [reflexivity |].
  now rewrite (insert_id fs transcriptions_dir Dir Hdir).
Qed.

(** C9, as the code has it.  When the transcript cannot be fetched the
    exception is raised and nothing is written.  When it is fetched, the
    video id holds no ["/"], [open] accepts the path
    [./transcriptions/<video_id>.txt], [./transcriptions] is a directory
    or does not exist, the path of the file is not a directory and the
    caption is encodable by the platform's text layer, the helper
    returns and leaves [./transcriptions] a directory that holds, under
    [<video_id>.txt], the caption in the platform's encoding, whatever
    was stored under that name before; every other path is left as it
    was.  When [open] refuses the path, its exception is raised and no
    file is written. *)
Theorem transcript_writes_file (p : platform) (video_id : string)
    (languages : list string) (fs : filesystem) :
  (forall e,
      fetch p video_id languages = inl e ->
      transcript p video_id languages fs = (Raise e, fs))
  /\ (forall fetched_transcript bytes,
         fetch p video_id languages = inr fetched_transcript ->
         text_encode p (caption_of fetched_transcript) = inr bytes ->
         no_slash video_id = true ->
         open_error p (transcript_path video_id) = None ->
         fs !! transcriptions_dir = None
         \/ fs !! transcriptions_dir = Some Dir ->
         fs !! transcript_path video_id <> Some Dir ->
         exists fs',
           transcript p video_id languages fs = (Return tt, fs')
           /\ fs' !! transcriptions_dir = Some Dir
           /\ fs' !! transcript_path video_id = Some (File bytes)
           /\ forall path,
                path <> transcriptions_dir ->
                path <> transcript_path video_id ->
                fs' !! path = fs !! path)
  /\ (forall fetched_transcript e,
         fetch p video_id languages = inr fetched_transcript ->
         open_error p (transcript_path video_id) = Some e ->
         fs !! transcriptions_dir = None
         \/ fs !! transcriptions_dir = Some Dir ->
         exists fs',
           transcript p video_id languages fs = (Raise e, fs')
           /\ forall path,
                path <> transcriptions_dir -> fs' !! path = fs !! path).
Proof.
  pose proof (transcript_path_not_dir video_id) as Hne.
  split; [| split].
  - intros e H. unfold transcript. now rewrite H.
  - intros fetched_transcript bytes Hfetch Henc Hname Hopen Hdir Hfile.
    eexists. split;
      [exact (transcript_run p _ _ _ _ _ Hfetch Henc Hname Hopen Hdir Hfile)
      |].
    repeat split; intros; simplify_map_eq; reflexivity.
  - intros fetched_transcript e Hfetch Hopen Hdir.
    eexists. split;
      [exact (transcript_refused p _ _ _ _ _ Hfetch Hopen Hdir) |].
    intros path Hpath. now rewrite lookup_insert_ne by congruence.
Qed.

(** *** Further properties of the transcript helper *)

Lemma length_with_txt video_id :
  String.length (video_id +:+ ".txt") = (4 + String.length video_id)%nat.
Proof.
  induction video_id as [| c rest IH]; simpl; [reflexivity |].
  rewrite IH. lia.
Qed.

Lemma append_txt_inj s1 : forall s2, s1 +:+ ".txt" = s2 +:+ ".txt" -> s1 = s2.
Proof.
  induction s1 as [| c s1 IH]; intros [| c2 s2] H; simpl in H.
  - reflexivity.
  - apply (f_equal String.length) in H. simpl in H.
    rewrite length_with_txt in H. lia.
  - apply (f_equal String.length) in H. simpl in H.
    rewrite length_with_txt in H. lia.
  - injection H as -> H. f_equal. now apply IH.
Qed.

Lemma transcript_path_inj v1 v2 :
  transcript_path v1 = transcript_path v2 -> v1 = v2.
Proof.
  unfold transcript_path. intros H. apply append_txt_inj.
  revert H. generalize (v1 +:+ ".txt") (v2 +:+ ".txt"). intros a b H.
  simpl in H. now injection H.
Qed.

(** X13: the helper touches no file when the transcript cannot be
    fetched, and none when [./transcriptions] exists but is not a
    directory: [os.mkdir] then raises [FileExistsError], after the
    transcript has been fetched. *)
Theorem transcript_failures_touch_nothing (p : platform)
    (video_id : string) (languages : list string) (fs : filesystem) :
  (forall e,
      fetch p video_id languages = inl e ->
      transcript p video_id languages fs = (Raise e, fs))
  /\ (forall fetched_transcript content,
         fetch p video_id languages = inr fetched_transcript ->
         fs !! "./transcriptions" = Some (File content) ->
         transcript p video_id languages fs = (Raise FileExistsError, fs)).
Proof.
  split.
  - intros e H. unfold transcript. now rewrite H.
  - intros fetched_transcript content Hfetch Hdir.
    unfold transcript, isdir, mkdir, transcriptions_dir.
    now rewrite Hfetch, Hdir.
Qed.

(** X14: the file is truncated before the caption is encoded: when
    [open] accepts the path and the platform cannot encode the caption,
    the helper raises and leaves under [<video_id>.txt] an empty file,
    whatever was there before. *)
Theorem transcript_encode_failure_truncates (p : platform)
    (video_id : string) (languages : list string) (fs : filesystem)
    (fetched_transcript : list snippet) (e : exn) :
  fetch p video_id languages = inr fetched_transcript ->
  text_encode p (caption_of fetched_transcript) = inl e ->
  no_slash video_id = true ->
  open_error p (transcript_path video_id) = None ->
  fs !! transcriptions_dir = None \/ fs !! transcriptions_dir = Some Dir ->
  fs !! transcript_path video_id <> Some Dir ->
  exists fs',
    transcript p video_id languages fs = (Raise e, fs')
    /\ fs' !! transcript_path video_id = Some (File []).
Proof.
  intros Hfetch Henc Hname Hopen Hdir Hfile.
  pose proof (transcript_path_not_dir video_id) as Hne.
  pose proof (parent_transcript_path video_id Hname) as Hparent.
  unfold transcript. rewrite Hfetch. unfold isdir at 1, mkdir.
  destruct Hdir as [Hdir | Hdir]; rewrite Hdir; simpl.
  - unfold open_w, isdir. rewrite Hopen, Hparent.
    rewrite lookup_insert_ne by congruence.
    rewrite lookup_insert_eq. simpl.
    destruct (fs !! transcript_path video_id) as [[| old] |] eqn:Hold;
      [congruence | |]; rewrite Henc; eexists;
      (split; [reflexivity | apply lookup_insert_eq]).
  - unfold open_w, isdir. rewrite Hopen, Hparent, Hdir. simpl.
    destruct (fs !! transcript_path video_id) as [[| old] |] eqn:Hold;
      [congruence | |]; rewrite Henc; eexists;
      (split; [reflexivity | apply lookup_insert_eq]).
Qed.

(** X15: when [open] accepts the path, running the helper again on what
    it has left changes nothing. *)
Theorem transcript_idempotent (p : platform) (video_id : string)
    (languages : list string) (fs : filesystem)
    (fetched_transcript : list snippet) (bytes : list Byte.byte) :
  fetch p video_id languages = inr fetched_transcript ->
  text_encode p (caption_of fetched_transcript) = inr bytes ->
  no_slash video_id = true ->
  open_error p (transcript_path video_id) = None ->
  fs !! transcriptions_dir = None \/ fs !! transcriptions_dir = Some Dir ->
  fs !! transcript_path video_id <> Some Dir ->
  let fs' := snd (transcript p video_id languages fs) in
  transcript p video_id languages fs = (Return tt, fs')
  /\ transcript p video_id languages fs' = (Return tt, fs').
Proof.
  intros Hfetch Henc Hname Hopen Hdir Hfile.
  pose proof (transcript_path_not_dir video_id) as Hne.
  rewrite (transcript_run _ _ _ _ _ _ Hfetch Henc Hname Hopen Hdir Hfile).
  cbv zeta. simpl snd. split; [reflexivity |].
  rewrite (transcript_run _ _ _ _ _ bytes Hfetch Henc Hname Hopen).
  - f_equal.
    set (fs1 := <[transcript_path video_id := File bytes]>
                  (<[transcriptions_dir := Dir]> fs)).
    rewrite (insert_id fs1 transcriptions_dir Dir).
    + apply insert_id, lookup_insert_eq.
    + unfold fs1. rewrite lookup_insert_ne by congruence.
      apply lookup_insert_eq.
  - right. rewrite lookup_insert_ne by congruence. apply lookup_insert_eq.
  - rewrite lookup_insert_eq. discriminate.
Qed.

(** X16: on a file system that keeps two spellings apart, the files of
    two videos do not interfere: when [open] accepts both paths, after
    the helper has run for one video and then for another, the file of
    the first still holds its caption. *)
Theorem transcript_keeps_other_files (p : platform) (v1 v2 : string)
    (languages : list string) (fs : filesystem)
    (t1 t2 : list snippet) (b1 b2 : list Byte.byte) :
  v1 <> v2 ->
  fetch p v1 languages = inr t1 ->
  fetch p v2 languages = inr t2 ->
  text_encode p (caption_of t1) = inr b1 ->
  text_encode p (caption_of t2) = inr b2 ->
  no_slash v1 = true ->
  no_slash v2 = true ->
  open_error p (transcript_path v1) = None ->
  open_error p (transcript_path v2) = None ->
  fs !! transcriptions_dir = None \/ fs !! transcriptions_dir = Some Dir ->
  fs !! transcript_path v1 <> Some Dir ->
  fs !! transcript_path v2 <> Some Dir ->
  let fs1 := snd (transcript p v1 languages fs) in
  transcript p v1 languages fs = (Return tt, fs1)
  /\ exists fs2,
       transcript p v2 languages fs1 = (Return tt, fs2)
       /\ fs2 !! transcript_path v1 = Some (File b1)
       /\ fs2 !! transcript_path v2 = Some (File b2).
Proof.
  intros Hv Hf1 Hf2 He1 He2 Hn1 Hn2 Ho1 Ho2 Hdir Hp1 Hp2.
  pose proof (transcript_path_not_dir v1) as Hne1.
  pose proof (transcript_path_not_dir v2) as Hne2.
  assert (transcript_path v1 <> transcript_path v2) as Hne
      by (intros H; now apply transcript_path_inj in H).
  rewrite (transcript_run _ _ _ _ _ _ Hf1 He1 Hn1 Ho1 Hdir Hp1).
  cbv zeta. simpl snd. split; [reflexivity |].
  rewrite (transcript_run _ _ _ _ _ b2 Hf2 He2 Hn2 Ho2).
  - eexists. split; [reflexivity |]. split.
    + rewrite lookup_insert_ne by congruence.
      rewrite lookup_insert_ne by congruence. apply lookup_insert_eq.
    + apply lookup_insert_eq.
  - right. rewrite lookup_insert_ne by congruence. apply lookup_insert_eq.
  - rewrite lookup_insert_ne by congruence.
    now rewrite lookup_insert_ne by congruence.
Qed.

End TranscriptProperties.

(** ** The properties at work on the demonstration channel *)

Section Demonstrations.

Import Transcriptor.

#[local] Existing Instance strict_lib.

Lemma max_results_cap_witness :
  len (map (summary_of demo_channel) (firstn 2 (ch_videos demo_channel))) = 2
  /\ (exists log',
        get_all_videos 3 demo (Some "UC1") None (Some 2) None []
        = (Return
             (map (summary_of demo_channel)
                (firstn 2 (ch_videos demo_channel))),
           log'))
  /\ len (map (summary_of demo_channel) (firstn 2 (ch_videos demo_channel)))
     <= 2.
Proof.
  assert (0 < 2) as Hpos by lia.
  destruct (max_results_cap 2 Hpos) as [Hmost Hexact].
  split; [| split].
  - apply (Hexact demo_channel (Some "UC1") None 3%nat []);
      [left; split; [reflexivity | discriminate]
      | simpl; lia | vm_compute; discriminate | simpl; lia].
  - apply (Hexact demo_channel (Some "UC1") None 3%nat []);
      [left; split; [reflexivity | discriminate]
      | simpl; lia | vm_compute; discriminate | simpl; lia].
  - apply (Hmost 3%nat demo (Some "UC1") None None []
             (map (summary_of demo_channel)
                (firstn 2 (ch_videos demo_channel)))
             [ChannelsList channels_part (Some "UC1") None;
              PlaylistItemsList playlist_part (VStr "UU1") 2 VNone]);
      [apply stub_page_bounded | vm_compute; reflexivity].
Defined.

Lemma published_after_filter_witness :
  Forall (fun r => is_error r = false -> not_before mid_january r)
    (map (summary_of demo_channel) (firstn 2 (ch_videos demo_channel))).
Proof.
  apply (proj1 (published_after_filter mid_january)
           4%nat demo None (Some "demo") (Some 10) []
           (map (summary_of demo_channel) (firstn 2 (ch_videos demo_channel)))
           [ChannelsList channels_part None (Some "demo");
            PlaylistItemsList playlist_part (VStr "UU1") 10 VNone;
            PlaylistItemsList playlist_part (VStr "UU1") 8 (VStr "pp")]).
  vm_compute. reflexivity.
Defined.

Lemma pagination_terminates_witness :
  exists log',
    get_all_videos 4 demo None (Some "demo") (Some 10) None []
    = (Return (map (summary_of demo_channel) (ch_videos demo_channel)), log')
    /\ stopped_without_cursor demo log'.
Proof.
  apply (pagination_terminates demo_channel None (Some "demo") 10 4 []);
    [right; repeat split; discriminate
    | simpl; lia | vm_compute; reflexivity | simpl; lia].
Defined.

Lemma watch_url_of_id_witness :
  Forall (fun r => is_error r = false -> has_watch_url r)
    (map (summary_of demo_channel) (ch_videos demo_channel)).
Proof.
  apply (proj1 watch_url_of_id 4%nat demo (Some "UC1") None None None []
           (map (summary_of demo_channel) (ch_videos demo_channel))
           [ChannelsList channels_part (Some "UC1") None;
            PlaylistItemsList playlist_part (VStr "UU1") 50 VNone;
            PlaylistItemsList playlist_part (VStr "UU1") 50 (VStr "pp")]).
  vm_compute. reflexivity.
Defined.

Lemma lookup_error_contract_witness :
  get_channel_info demo None (Some "nobody") []
  = (Return [("error", VStr "Channel not found")],
     [ChannelsList channels_part None (Some "nobody")])
  /\ get_video_details {| api_key := "key"; youtube := quota_exceeded |}
       "v1" []
     = (Return [("error", VStr "API Error: Quota exceeded.")],
        [VideosList channels_part "v1"]).
Proof.
  split.
  - apply (proj1 (proj1 (lookup_error_contract demo [])
                    None (Some "nobody") eq_refl)
             (VDict [("items", VList [])]) eq_refl).
    exists (VList []). split; reflexivity.
  - apply (proj1 (proj2 (proj1 (proj2
                    (lookup_error_contract
                       {| api_key := "key"; youtube := quota_exceeded |} []))
                    "v1"))
             (Some (error_body 403 "Quota exceeded."))
             (VStr "Quota exceeded.") eq_refl).
    exists (error_body 403 "Quota exceeded."). split; reflexivity.
Defined.

Lemma missing_identifier_raises_witness :
  get_channel_info demo None None []
  = (Raise (ValueError "Either channel_id or username must be provided"), [])
  /\ request_count (snd (get_all_videos 4 demo None None (Some 10) None []))
     = 0%nat.
Proof.
  pose proof (missing_identifier_raises demo None None eq_refl eq_refl)
    as (Hinfo & _ & _ & Hcount).
  split; [apply Hinfo | apply Hcount].
Defined.

Lemma failures_in_band_witness :
  get_all_videos 4 demo None (Some "nobody") (Some 10) None []
  = (Return [[("error", VStr "Channel not found")]],
     [ChannelsList channels_part None (Some "nobody")])
  /\ fst (get_all_videos 4
            {| api_key := "key";
               youtube := quota_after_first_page demo_channel |}
            (Some "UC1") None (Some 3) None [])
     = Return [[("error", VStr "API Error: Quota exceeded.")]]
  /\ fst (get_all_videos 4
            {| api_key := "key";
               youtube := connection_lost_after_first_page demo_channel |}
            (Some "UC1") None (Some 3) None [])
     = Raise TransportError.
Proof.
  split; [| split].
  - apply (proj1 (failures_in_band 4 demo None (Some "nobody") (Some 10) None
                    [] eq_refl)
             [("error", VStr "Channel not found")]);
      reflexivity.
  - apply (proj1 (proj2 (failures_in_band 4
                    {| api_key := "key";
                       youtube := quota_after_first_page demo_channel |}
                    (Some "UC1") None (Some 3) None [] eq_refl))
             _
             [ChannelsList channels_part (Some "UC1") None;
              PlaylistItemsList playlist_part (VStr "UU1") 3 VNone]
             (PlaylistItemsList playlist_part (VStr "UU1") 1 (VStr "pp"))
             (Some (error_body 403 "Quota exceeded."))
             (VStr "Quota exceeded."));
      [vm_compute; reflexivity | reflexivity |].
    exists (error_body 403 "Quota exceeded."). split; reflexivity.
  - apply (proj2 (proj2 (failures_in_band 4
                    {| api_key := "key";
                       youtube :=
                         connection_lost_after_first_page demo_channel |}
                    (Some "UC1") None (Some 3) None [] eq_refl))
             _
             [ChannelsList channels_part (Some "UC1") None;
              PlaylistItemsList playlist_part (VStr "UU1") 3 VNone]
             (PlaylistItemsList playlist_part (VStr "UU1") 1 (VStr "pp")));
      [vm_compute; reflexivity | reflexivity].
Defined.

Lemma falsy_max_results_unbounded_witness :
  fst (get_all_videos 4 demo (Some "UC1") None (Some 0) None [])
  = Return (map (summary_of demo_channel) (ch_videos demo_channel))
  /\ fst (get_all_videos 40
            {| api_key := "key"; youtube := endless demo_channel |}
            (Some "UC1") None None None [])
     = OutOfFuel.
Proof.
  split.
  - apply (proj1 (proj2 (proj2 (proj2
             (falsy_max_results_unbounded (Some 0) eq_refl))))
             demo_channel (Some "UC1") None 4%nat []);
      [left; split; [reflexivity | discriminate] | simpl; lia | simpl; lia].
  - apply (proj2 (proj2 (proj2 (proj2
             (falsy_max_results_unbounded None eq_refl))))
             demo_channel (Some "UC1") None None 40%nat []).
    left; split; [reflexivity | discriminate].
Defined.

Lemma get_video_details_unvalidated_witness :
  fst (get_video_details demo "" [])
  = Return [("error", VStr "Video not found")]
  /\ snd (get_video_details demo "" []) = [VideosList channels_part ""].
Proof.
  pose proof (get_video_details_unvalidated demo "" [])
    as (Hlog & _ & _ & Hzero & _).
  split; [| exact Hlog].
  apply (Hzero (VDict [("items", VList [])]) eq_refl).
  exists (VList []). split; reflexivity.
Defined.

(** C7 as stated fails: an exception of the transport that is not an
    [HttpError] is raised, not returned, on the resolution request as on
    a later page. *)
Lemma failures_raised_counterexample :
  fst (get_all_videos 4 {| api_key := "key"; youtube := offline |}
         (Some "UC1") None (Some 10) None [])
  = Raise TransportError
  /\ get_all_videos 4
       {| api_key := "key";
          youtube := connection_lost_after_first_page demo_channel |}
       (Some "UC1") None (Some 3) None []
     = (Raise TransportError,
        [ChannelsList channels_part (Some "UC1") None;
         PlaylistItemsList playlist_part (VStr "UU1") 3 VNone;
         PlaylistItemsList playlist_part (VStr "UU1") 1 (VStr "pp")]).
Proof. split; vm_compute; reflexivity. Qed.

Lemma transcript_writes_file_witness :
  transcript no_transcript_platform "abc" ["en"] old_files
  = (Raise TranscriptError, old_files)
  /\ (exists fs',
         transcript utf8_platform "abc" ["en"] old_files = (Return tt, fs')
         /\ fs' !! "./transcriptions/abc.txt"
            = Some (File [ Byte.x63; Byte.x61; Byte.x66; Byte.xc3; Byte.xa9;
                           Byte.x20; Byte.x6e; Byte.x6f; Byte.x69; Byte.x72 ]))
  /\ (exists fs',
         transcript utf8_platform nul_id ["en"] old_files
         = (Raise (ValueError "embedded null byte"), fs')
         /\ fs' !! "./transcriptions/abc.txt" = Some (File [Byte.x00])).
Proof.
  split; [| split].
  - apply (proj1 (transcript_writes_file no_transcript_platform "abc" ["en"]
                    old_files)).
    reflexivity.
  - destruct (proj1 (proj2 (transcript_writes_file utf8_platform "abc" ["en"]
                              old_files))
                two_lines
                [ Byte.x63; Byte.x61; Byte.x66; Byte.xc3; Byte.xa9;
                  Byte.x20; Byte.x6e; Byte.x6f; Byte.x69; Byte.x72 ])
      as (fs' & Hrun & _ & Hfile & _);
      [reflexivity | reflexivity | reflexivity | reflexivity
      | right; vm_compute; reflexivity | vm_compute; discriminate |].
    exists fs'. split; [exact Hrun | exact Hfile].
  - destruct (proj2 (proj2 (transcript_writes_file utf8_platform nul_id
                              ["en"] old_files))
                two_lines (ValueError "embedded null byte"))
      as (fs' & Hrun & Hother);
      [reflexivity | reflexivity | right; vm_compute; reflexivity |].
    exists fs'. split; [exact Hrun |].
    rewrite Hother; [vm_compute; reflexivity | discriminate].
Defined.

(** C9 as stated fails: nothing is written for a video without
    transcript, and what is written is encoded as the platform does. *)
Lemma transcript_counterexample :
  transcript no_transcript_platform "abc" ["en"] ∅
  = (Raise TranscriptError, ∅)
  /\ snd (transcript latin1_platform "abc" ["en"] ∅)
       !! "./transcriptions/abc.txt"
     = Some (File [ Byte.x63; Byte.x61; Byte.x66; Byte.xe9;
                    Byte.x20; Byte.x6e; Byte.x6f; Byte.x69; Byte.x72 ])
  /\ utf8_encode (caption_of two_lines)
     = inr [ Byte.x63; Byte.x61; Byte.x66; Byte.xc3; Byte.xa9;
             Byte.x20; Byte.x6e; Byte.x6f; Byte.x69; Byte.x72 ].
Proof. repeat split; vm_compute; reflexivity. Qed.

(** *** The further properties at work *)

Lemma init_key_resolution_witness :
  init (build_stub demo_channel) ∅ None
  = inl (ValueError missing_key_message)
  /\ init (build_stub demo_channel) with_key None
     = init (build_stub demo_channel) with_key (Some "secret").
Proof.
  pose proof (init_key_resolution (build_stub demo_channel) ∅)
    as (_ & _ & Hnone & _).
  pose proof (init_key_resolution (build_stub demo_channel) with_key)
    as (_ & Henv & _).
  split; [apply Hnone | apply Henv]; reflexivity.
Defined.

Lemma channel_id_preferred_witness :
  get_channel_info demo (Some "UC1") (Some "nobody") []
  = get_channel_info demo (Some "UC1") None [].
Proof.
  apply (proj1 (channel_id_preferred demo (Some "UC1") [] eq_refl)).
Defined.

Lemma http_error_never_escapes_witness :
  match html_error_page [] (channels_request (Some "UC1") None) with
  | Body _ => is_lookup_error DecodeError = true
  | HttpFailure (Some _) => is_lookup_error DecodeError = true
  | HttpFailure None => DecodeError = DecodeError
                        /\ is_ValueError DecodeError = true
  | OtherFailure => DecodeError = TransportError
  end.
Proof.
  apply (proj2 (proj2 (proj2
           (http_error_never_escapes
              {| api_key := "key"; youtube := html_error_page |} [] None)))
           (Some "UC1") None DecodeError eq_refl).
  vm_compute. reflexivity.
Defined.

Lemma negative_max_results_lists_nothing_witness :
  exists out,
    get_all_videos 1 demo (Some "UC1") None (Some (-5)) None []
    = (out, [] ++ [resolution_request (Some "UC1") None])
    /\ (forall l,
           out = Return l -> l = [] \/ exists err, l = [[("error", err)]])
    /\ (forall response channel_info,
           youtube demo [] (resolution_request (Some "UC1") None)
           = Body response ->
           channel_of_response response = inr channel_info ->
           dict_lookup "error" channel_info = None ->
           out = Return []).
Proof.
  apply (negative_max_results_lists_nothing 0 demo (Some "UC1") None (-5)
           None []); [lia | reflexivity].
Defined.

Lemma listing_requests_well_sized_witness :
  exists reqs,
    [ChannelsList channels_part (Some "UC1") None;
     PlaylistItemsList playlist_part (VStr "UU1") 3 VNone;
     PlaylistItemsList playlist_part (VStr "UU1") 1 (VStr "pp")]
    = [] ++ resolution_request (Some "UC1") None :: reqs
    /\ (reqs = []
        \/ exists response channel_info playlist,
             youtube demo [] (resolution_request (Some "UC1") None)
             = Body response
             /\ channel_of_response response = inr channel_info
             /\ dict_lookup "uploads_playlist" channel_info = Some playlist
             /\ Forall (well_sized playlist) reqs).
Proof.
  apply (listing_requests_well_sized 4 demo (Some "UC1") None (Some 3) None
           [] _ (Return (map (summary_of demo_channel)
                           (ch_videos demo_channel))) eq_refl).
  vm_compute. reflexivity.
Defined.

Lemma cursors_are_chained_witness :
  exists reqs,
    [ChannelsList channels_part (Some "UC1") None;
     PlaylistItemsList playlist_part (VStr "UU1") 3 VNone;
     PlaylistItemsList playlist_part (VStr "UU1") 1 (VStr "pp")]
    = [] ++ resolution_request (Some "UC1") None :: reqs
    /\ cursor_chain demo ([] ++ [resolution_request (Some "UC1") None])
         VNone reqs.
Proof.
  apply (cursors_are_chained 4 demo (Some "UC1") None (Some 3) None
           [] _ (Return (map (summary_of demo_channel)
                           (ch_videos demo_channel))) eq_refl).
  vm_compute. reflexivity.
Defined.

Lemma listing_concatenates_pages_witness :
  (exists err,
      map (summary_of demo_channel) (firstn 2 (ch_videos demo_channel))
      = [[("error", err)]])
  \/ exists reqs,
       [ChannelsList channels_part None (Some "demo");
        PlaylistItemsList playlist_part (VStr "UU1") 10 VNone;
        PlaylistItemsList playlist_part (VStr "UU1") 8 (VStr "pp")]
       = [] ++ resolution_request None (Some "demo") :: reqs
       /\ map (summary_of demo_channel) (firstn 2 (ch_videos demo_channel))
          = collected (Some mid_january) demo
              ([] ++ [resolution_request None (Some "demo")]) reqs.
Proof.
  apply (listing_concatenates_pages 4 demo None (Some "demo") (Some 10)
           (Some mid_january) []).
  vm_compute. reflexivity.
Defined.

Lemma for_items_succeeds_iff_witness :
  exists videos',
    for_items (Some mid_january)
      (map (playlist_item demo_channel) (ch_videos demo_channel)) []
    = inr videos'.
Proof.
  apply (proj2 (for_items_succeeds_iff (Some mid_january)
                  (map (playlist_item demo_channel) (ch_videos demo_channel))
                  [])).
  constructor; [right; split; [reflexivity | eexists; reflexivity] |].
  constructor; [right; split; [reflexivity | eexists; reflexivity] |].
  constructor; [left; reflexivity | constructor].
Defined.

Lemma video_detail_required_keys_witness :
  video_required
    (VDict [ ("id", VStr "v1");
             ("snippet",
               VDict [ ("title", VStr "one"); ("description", VStr "");
                       ("publishedAt", VStr "2024-01-01T10:00:00Z");
                       ("thumbnails", VDict []); ("channelId", VStr "UC1");
                       ("channelTitle", VStr "Demo") ]);
             ("contentDetails", VDict [("duration", VStr "PT1M")]);
             ("statistics", VDict []) ]).
Proof.
  apply (proj2 (proj1 (video_detail_required_keys _))).
  eexists. reflexivity.
Defined.

Lemma one_page_suffices_witness :
  get_all_videos 2 demo None (Some "demo") (Some 2) None []
  = (Return (map (summary_of demo_channel)
               (firstn (Z.to_nat 2) (ch_videos demo_channel))),
     [] ++ [resolution_request None (Some "demo");
            PlaylistItemsList "snippet,contentDetails" (VStr "UU1") 2 VNone]).
Proof.
  apply (one_page_suffices demo_channel None (Some "demo") 2 2 []);
    [right; repeat split; discriminate
    | lia | simpl; lia | vm_compute; discriminate | lia].
Defined.

Lemma script_fails_early_witness :
  main (build_stub demo_channel) with_key 11 ([], [])
  = (Raise (KeyError (VStr "title")),
     ([] ++ [ChannelsList "snippet,contentDetails,statistics"
               (Some "UC_x5XG1OV2P6uZZ5FSM9Ttw") None], [])).
Proof.
  apply (proj2 (script_fails_early (build_stub demo_channel) with_key 11 []
                  [])
           "secret" (stub demo_channel) eq_refl eq_refl).
  left. exists (VDict [("items", VList [])]). split; [reflexivity |].
  exists (VList []). split; reflexivity.
Defined.

Lemma script_on_stub_witness :
  exists log',
    main (build_stub developers_channel) with_key 11 ([], [])
    = (Return tt, (log', [] ++ script_output developers_channel))
    /\ (ch_videos developers_channel = [] ->
        forall r, In r log' ->
                  In r [] \/ forall part id, r <> VideosList part id).
Proof.
  apply (script_on_stub (build_stub developers_channel) with_key "secret"
           developers_channel 11 [] []);
    [reflexivity | reflexivity | reflexivity | simpl; lia | lia].
Defined.

Lemma transcript_failures_touch_nothing_witness :
  transcript utf8_platform "abc" ["en"] {[ "./transcriptions" := File [] ]}
  = (Raise FileExistsError, {[ "./transcriptions" := File [] ]}).
Proof.
  apply (proj2 (transcript_failures_touch_nothing utf8_platform "abc" ["en"]
                  {[ "./transcriptions" := File [] ]})
           two_lines []);
    [reflexivity | vm_compute; reflexivity].
Defined.

Lemma transcript_encode_failure_truncates_witness :
  exists fs',
    transcript unencodable_platform "abc" ["en"] old_files
    = (Raise UnicodeEncodeError, fs')
    /\ fs' !! transcript_path "abc" = Some (File []).
Proof.
  apply (transcript_encode_failure_truncates unencodable_platform "abc"
           ["en"] old_files two_lines UnicodeEncodeError);
    [reflexivity | reflexivity | reflexivity | reflexivity
    | right; vm_compute; reflexivity | vm_compute; discriminate].
Defined.

Lemma transcript_idempotent_witness :
  transcript utf8_platform "abc" ["en"] ∅
  = (Return tt, snd (transcript utf8_platform "abc" ["en"] ∅))
  /\ transcript utf8_platform "abc" ["en"]
       (snd (transcript utf8_platform "abc" ["en"] ∅))
     = (Return tt, snd (transcript utf8_platform "abc" ["en"] ∅)).
Proof.
  apply (transcript_idempotent utf8_platform "abc" ["en"] ∅ two_lines
           [ Byte.x63; Byte.x61; Byte.x66; Byte.xc3; Byte.xa9;
             Byte.x20; Byte.x6e; Byte.x6f; Byte.x69; Byte.x72 ]);
    [reflexivity | reflexivity | reflexivity | reflexivity
    | left; reflexivity | vm_compute; discriminate].
Defined.

Lemma transcript_keeps_other_files_witness :
  transcript latin1_platform "abc" ["en"] ∅
  = (Return tt, snd (transcript latin1_platform "abc" ["en"] ∅))
  /\ exists fs2,
       transcript latin1_platform "xyz" ["en"]
         (snd (transcript latin1_platform "abc" ["en"] ∅))
       = (Return tt, fs2)
       /\ fs2 !! transcript_path "abc"
          = Some (File [ Byte.x63; Byte.x61; Byte.x66; Byte.xe9;
                         Byte.x20; Byte.x6e; Byte.x6f; Byte.x69; Byte.x72 ])
       /\ fs2 !! transcript_path "xyz"
          = Some (File [ Byte.x63; Byte.x61; Byte.x66; Byte.xe9;
                         Byte.x20; Byte.x6e; Byte.x6f; Byte.x69; Byte.x72 ]).
Proof.
  apply (transcript_keeps_other_files latin1_platform "abc" "xyz" ["en"] ∅
           two_lines two_lines);
    [discriminate | reflexivity | reflexivity | reflexivity | reflexivity
    | reflexivity | reflexivity | reflexivity | reflexivity
    | left; reflexivity
    | vm_compute; discriminate | vm_compute; discriminate].
Defined.

Lemma listing_ends_on_progress_witness :
  fst (get_all_videos 4 demo (Some "UC1") None (Some 3) None [])
  <> OutOfFuel.
Proof.
  apply (listing_ends_on_progress 4 demo (Some "UC1") None 3 None []);
    [lia | apply stub_makes_progress; simpl; lia | simpl; lia].
Defined.

Lemma listing_is_printable_witness :
  (exists err,
      map (summary_of demo_channel) (ch_videos demo_channel)
      = [[("error", err)]]
      /\ print_videos (map (summary_of demo_channel) (ch_videos demo_channel))
           ([], [])
         = (Raise (KeyError (VStr "title")), ([], [])))
  \/ exists lines,
       print_videos (map (summary_of demo_channel) (ch_videos demo_channel))
         ([], [])
       = (Return tt, ([], [] ++ lines))
       /\ length lines
          = length (map (summary_of demo_channel) (ch_videos demo_channel)).
Proof.
  apply (listing_is_printable 4 demo (Some "UC1") None (Some 3) None []
           [ChannelsList channels_part (Some "UC1") None;
            PlaylistItemsList playlist_part (VStr "UU1") 3 VNone;
            PlaylistItemsList playlist_part (VStr "UU1") 1 (VStr "pp")]).
  vm_compute. reflexivity.
Defined.

End Demonstrations.
